(** * cgrulesengd: the cgroups rules engine daemon

    A shallow embedding of [src/cgrulesengd.c]: the credential lookup in
    [/proc/PID/status] ([cgre_process_event]), the event filter
    ([cgre_handle_msg]) and the netlink receive loop
    ([cgre_create_netlink_socket_process_msg]), followed by the properties
    of the event pipeline that the specification states.

    Conventions.  C integers are [Z]; the 64-bit [size_t] of [recv_len] and
    the 32-bit [__u32] of [nlmsg_len] have their wrap-around written out.
    Text is [list ascii].  Every call that leaves the process (a log line,
    [fopen], the libcgroup entry point) is recorded, in order, in a trace
    that the functions return next to their C result. *)

From Stdlib Require Import ZArith String Ascii List Bool Lia.
From Stdlib Require Import DecimalString DecimalNat.
Import ListNotations.
Local Open Scope Z_scope.

(* ================================================================== *)
(** ** The C library functions the daemon calls on text *)

Module Libc.

Definition text := list ascii.

Definition NUL : ascii := Ascii.zero.
Definition LF : ascii := "010"%char.

Definition code (c : ascii) : Z := Z.of_N (N_of_ascii c).

(** [isspace] and [isdigit] of the C locale. *)
Definition isspace (c : ascii) : bool :=
  (code c =? 32) || ((9 <=? code c) && (code c <=? 13)).

Definition isdigit (c : ascii) : bool :=
  (48 <=? code c) && (code c <=? 57).

(** [strncmp_eq a b n] is [strncmp(a, b, n) == 0]; the end of a list is the
    terminating NUL of the C string. *)
Fixpoint strncmp_eq (a b : text) (n : nat) : bool :=
  match n with
  | O => true
  | S k =>
      let ca := hd NUL a in
      let cb := hd NUL b in
      if Ascii.eqb ca cb
      then (if Ascii.eqb ca NUL then true else strncmp_eq (tl a) (tl b) k)
      else false
  end.

(** The characters [fgets] takes from the stream when there is room for
    [room] of them: up to and including the first newline. *)
Fixpoint read_line (room : nat) (f : text) : text * text :=
  match room, f with
  | O, _ => ([], f)
  | _, [] => ([], [])
  | S k, c :: f' =>
      if Ascii.eqb c LF then ([c], f')
      else let (l, r) := read_line k f' in (c :: l, r)
  end.

(** [fgets(buf, size, f)]: [None] is the NULL of end of input; otherwise the
    characters read and the stream that is left. *)
Definition fgets (size : nat) (f : text) : option (text * text) :=
  match f with
  | [] => None
  | _ :: _ => Some (read_line (size - 1) f)
  end.

(** What [fgets] leaves in the buffer: the characters, a NUL, and the old
    contents behind it. *)
Definition store_line (buf line : text) : text :=
  line ++ NUL :: skipn (S (List.length line)) buf.

(** [memset(buf, '\0', n)] and [calloc(n, 1)]. *)
Definition zeros (n : nat) : text := repeat NUL n.

(** The value an [int] conversion leaves in a 32-bit [uid_t] / [gid_t]. *)
Definition to_u32 (v : Z) : Z := v mod 2 ^ 32.

Fixpoint skip_space (s : text) : text :=
  match s with
  | c :: s' => if isspace c then skip_space s' else s
  | [] => []
  end.

Fixpoint read_digits (acc : Z) (s : text) : Z * text :=
  match s with
  | c :: s' =>
      if isdigit c then read_digits (10 * acc + (code c - 48)) s' else (acc, s)
  | [] => (acc, [])
  end.

(** One [%d] directive of [sscanf]: white space, an optional sign, at least
    one decimal digit.  [None] is a matching failure. *)
Definition scan_d (s : text) : option (Z * text) :=
  let s1 := skip_space s in
  let '(neg, s2) :=
    match s1 with
    | c :: r =>
        if Ascii.eqb c "-"%char then (true, r)
        else if Ascii.eqb c "+"%char then (false, r)
        else (false, s1)
    | [] => (false, s1)
    end in
  match s2 with
  | c :: _ =>
      if isdigit c
      then let (v, r) := read_digits 0 s2 in Some (if neg then - v else v, r)
      else None
  | [] => None
  end.

(** Four variables that [sscanf] may or may not assign; [None] is the
    indeterminate value of a local that was never written. *)
Record quad := Quad { q_real : option Z; q_eff : option Z;
                      q_saved : option Z; q_fs : option Z }.

Definition uninit : quad := Quad None None None None.

(** [sscanf(s, "%d%d%d%d", &a, &b, &c, &d)]: the conversions run in order
    and stop at the first matching failure; the variables of the
    conversions that did not run keep their old contents. *)
Definition sscanf_d4 (s : text) (q : quad) : quad :=
  match scan_d s with
  | None => q
  | Some (a, s1) =>
    let q1 := Quad (Some (to_u32 a)) (q_eff q) (q_saved q) (q_fs q) in
    match scan_d s1 with
    | None => q1
    | Some (b, s2) =>
      let q2 := Quad (q_real q1) (Some (to_u32 b)) (q_saved q) (q_fs q) in
      match scan_d s2 with
      | None => q2
      | Some (c, s3) =>
        let q3 := Quad (q_real q2) (q_eff q2) (Some (to_u32 c)) (q_fs q) in
        match scan_d s3 with
        | None => q3
        | Some (d, _) =>
            Quad (q_real q3) (q_eff q3) (q_saved q3) (Some (to_u32 d))
        end
      end
    end
  end.

End Libc.

Import Libc.

(* ================================================================== *)
(** ** Netlink framing: the macros of <linux/netlink.h> *)

Module Netlink.

(** [struct nlmsghdr]; the loop reads only these two fields. *)
Record nlmsghdr := { nlmsg_len : Z; nlmsg_type : Z }.

Definition NLMSG_NOOP : Z := 1.
Definition NLMSG_ERROR : Z := 2.
Definition NLMSG_DONE : Z := 3.
Definition NLMSG_OVERRUN : Z := 4.

(** [sizeof(struct nlmsghdr)]. *)
Definition NLMSG_HDRLEN : Z := 16.

(** [NLMSG_ALIGN(len)] is [((len) + 4U - 1) & ~(4U - 1)], computed in
    [unsigned int]. *)
Definition NLMSG_ALIGN (len : Z) : Z :=
  Z.land ((len + 3) mod 2 ^ 32) (2 ^ 32 - 4).

(** [NLMSG_OK(nlh, len)]; [len] is the [size_t] [recv_len]. *)
Definition NLMSG_OK (nlh : nlmsghdr) (len : Z) : bool :=
  (NLMSG_HDRLEN <=? len) && (NLMSG_HDRLEN <=? nlmsg_len nlh)
  && (nlmsg_len nlh <=? len).

(** The [size_t] arithmetic of [len -= NLMSG_ALIGN(nlh->nlmsg_len)]. *)
Definition size_sub (len k : Z) : Z := (len - k) mod 2 ^ 64.

End Netlink.

Import Netlink.

(* ================================================================== *)
(** ** The daemon's data *)

(** [struct proc_event] of <linux/cn_proc.h>, as far as the daemon reads it:
    the discriminant [what] and the [id] member of the [event_data] union.
    [id.r] and [id.e] are themselves unions, so [ruid]/[rgid] name one
    field and [euid]/[egid] another. *)
Record proc_event := {
  what : Z;
  process_pid : Z;
  process_tgid : Z;
  id_r : Z;
  id_e : Z
}.

Definition PROC_EVENT_UID : Z := 4.    (* 0x00000004 *)
Definition PROC_EVENT_GID : Z := 64.   (* 0x00000040 *)

(** [ENOBUFS] of <errno.h>. *)
Definition ENOBUFS : Z := 105.

(** Modelled from the spec: the constant [CGFLAG_USECACHE] is declared in
    libcgroup.h, which is not among the sources; the specification says of
    it that the flags of a request always ask the policy engine for a
    cache-assisted rule lookup. *)
Definition CGFLAG_USECACHE : Z := 1.

(** The arguments of one call of [cgroup_change_cgroup_uid_gid_flags].  An
    argument read from a local that nothing assigned is [None]. *)
Record request := {
  req_uid : option Z;
  req_gid : option Z;
  req_pid : Z;
  req_flags : Z
}.

(** The lines written with [flog]. *)
Inductive log_msg :=
| LogUidEvent                                   (* "UID Event:" *)
| LogGidEvent                                   (* "GID Event:" *)
| LogIds (pid tgid r e : Z)                     (* "  PID = %d, tGID = ..." *)
| LogFailedOpen (pid : Z)                       (* "Failed to open %s" *)
| LogOutOfMemory (errno : Z)                    (* "Failed to process event, ..." *)
| LogNotUidGid                                  (* "For some reason, ..." *)
| LogAttempt (pid : Z) (uid gid : option Z)     (* "Attempting to change ..." *)
| LogFailed (code : Z)                          (* "FAILED! (Error Code: %d)" *)
| LogOk                                         (* "OK!" *)
| LogBufferFull.                                (* "NETLINK BUFFER FULL" *)

(** What the daemon does to the outside, in program order.  [HandleMsg off]
    marks the call of [cgre_handle_msg] on the message whose netlink header
    sits [off] bytes into the receive buffer. *)
Inductive action :=
| Flog (m : log_msg)
| Fopen (pid : Z)
| Reassign (r : request)
| HandleMsg (off : Z).

Definition trace := list action.

(** What the daemon cannot decide itself: the status records of procfs
    ([None]: [fopen] fails), whether [calloc] fails ([Some e]: it returns
    NULL and [errno] reads [e]), and the code that libcgroup returns. *)
Record world := {
  proc_status : Z -> option text;
  calloc_errno : option Z;
  policy : request -> Z
}.

(** A C result together with the actions performed on the way. *)
Definition M (A : Type) : Type := (A * trace)%type.

Definition ret {A} (a : A) : M A := (a, []).

Definition bind {A B} (m : M A) (k : A -> M B) : M B :=
  let '(a, t) := m in let '(b, t') := k a in (b, t ++ t').

Definition emit (a : action) : M unit := (tt, [a]).

Definition flog (m : log_msg) : M unit := emit (Flog m).

Notation "x <- m ;; k" := (bind m (fun x => k))
  (at level 61, m at next level, right associativity).
Notation "m ;;; k" := (bind m (fun _ => k))
  (at level 61, right associativity).

Definition requests (t : trace) : list request :=
  flat_map (fun a => match a with Reassign r => [r] | _ => [] end) t.

Definition lookups (t : trace) : list Z :=
  flat_map (fun a => match a with Fopen p => [p] | _ => [] end) t.

Definition handled (t : trace) : list Z :=
  flat_map (fun a => match a with HandleMsg o => [o] | _ => [] end) t.

Definition logged (t : trace) : list log_msg :=
  flat_map (fun a => match a with Flog m => [m] | _ => [] end) t.

(* ================================================================== *)
(** ** cgre_process_event *)

Definition BUF_SIZE : nat := 4096.

Definition Gid_label : text := list_ascii_of_string "Gid:".
Definition Uid_label : text := list_ascii_of_string "Uid:".

(** The loop [while (fgets(buf, 4096, f)) { if (!strncmp(buf, label, 4))
    { sscanf(buf + 5, ...); break; } memset(buf, 0, 4096); }].  The buffer
    is all zero at every [fgets]: [calloc] zeroes it and each turn that does
    not leave the loop ends in the [memset].  The result is the four
    variables and the stream position the loop leaves.  Each [fgets] that
    succeeds takes at least one character, so [fuel] = the length of the
    stream is never used up (see [scan_status_fuel]). *)
Fixpoint scan_status (fuel : nat) (label : text) (f : text) (q : quad)
  : quad * text :=
  match fuel with
  | O => (q, f)
  | S k =>
      match fgets BUF_SIZE f with
      | None => (q, f)
      | Some (line, f') =>
          let buf := store_line (zeros BUF_SIZE) line in
          if strncmp_eq buf label 4
          then (sscanf_d4 (skipn 5 buf) q, f')
          else scan_status k label f' q
      end
  end.

Definition find_label (label : text) (f : text) (q : quad) : quad * text :=
  scan_status (List.length f) label f q.

(** The lines of a status record as the loop sees them: what the successive
    calls of [fgets] return. *)
Fixpoint fgets_lines (fuel : nat) (f : text) : list text :=
  match fuel with
  | O => []
  | S k =>
      match fgets BUF_SIZE f with
      | None => []
      | Some (line, f') => line :: fgets_lines k f'
      end
  end.

Definition status_lines (f : text) : list text :=
  fgets_lines (List.length f) f.

(** A line of text that fits the buffer: it ends in its only newline. *)
Definition is_line (l : text) : Prop :=
  exists body, l = body ++ [LF] /\ ~ In LF body
               /\ (List.length l < BUF_SIZE)%nat.

(** [!strncmp(buf, label, 4)] on the buffer that holds [line]. *)
Definition has_label (label line : text) : bool :=
  strncmp_eq (store_line (zeros BUF_SIZE) line) label 4.

(** [sscanf(buf + 5, "%d%d%d%d", ...)] on the buffer that holds [line]. *)
Definition parse_ids (line : text) (q : quad) : quad :=
  sscanf_d4 (skipn 5 (store_line (zeros BUF_SIZE) line)) q.

Definition cgre_process_event (w : world) (ev : proc_event) (type : Z) : M Z :=
  let pid := process_pid ev in
  emit (Fopen pid) ;;;
  match proc_status w pid with
  | None =>
      flog (LogFailedOpen pid) ;;;
      ret 0                                           (* goto finished *)
  | Some f =>
      match calloc_errno w with
      | Some e =>
          flog (LogOutOfMemory e) ;;;
          ret e                                       (* ret = errno *)
      | None =>
          (* first switch: the credentials that the event does not carry *)
          ids <- (if type =? PROC_EVENT_UID then
                    ret (uninit, fst (find_label Gid_label f uninit))
                  else if type =? PROC_EVENT_GID then
                    ret (fst (find_label Uid_label f uninit), uninit)
                  else
                    flog LogNotUidGid ;;; ret (uninit, uninit)) ;;
          let '(uids, gids) := ids in
          (* second switch: the call into libcgroup *)
          r <- (if type =? PROC_EVENT_UID then
                  let rq := {| req_uid := Some (id_e ev);
                               req_gid := q_eff gids;
                               req_pid := pid;
                               req_flags := CGFLAG_USECACHE |} in
                  flog (LogAttempt pid (Some (id_e ev)) (q_eff gids)) ;;;
                  emit (Reassign rq) ;;;
                  ret (policy w rq)
                else if type =? PROC_EVENT_GID then
                  let rq := {| req_uid := q_eff uids;
                               req_gid := Some (id_e ev);
                               req_pid := pid;
                               req_flags := CGFLAG_USECACHE |} in
                  flog (LogAttempt pid (q_eff uids) (Some (id_e ev))) ;;;
                  emit (Reassign rq) ;;;
                  ret (policy w rq)
                else ret 0) ;;
          flog (if r =? 0 then LogOk else LogFailed r) ;;;
          ret r
      end
  end.

(* ================================================================== *)
(** ** cgre_handle_msg *)

Definition cgre_handle_msg (w : world) (ev : proc_event) : M Z :=
  if what ev =? PROC_EVENT_UID then
    flog LogUidEvent ;;;
    flog (LogIds (process_pid ev) (process_tgid ev) (id_r ev) (id_e ev)) ;;;
    cgre_process_event w ev PROC_EVENT_UID
  else if what ev =? PROC_EVENT_GID then
    flog LogGidEvent ;;;
    flog (LogIds (process_pid ev) (process_tgid ev) (id_r ev) (id_e ev)) ;;;
    cgre_process_event w ev PROC_EVENT_GID
  else ret 0.

(** ** The requests and the outcomes of a message *)

(** The request of a UID event: the effective uid of the event with the
    second variable of the [sscanf] on the "Gid:" line. *)
Definition uid_request (ev : proc_event) (f : text) : request :=
  {| req_uid := Some (id_e ev);
     req_gid := q_eff (fst (find_label Gid_label f uninit));
     req_pid := process_pid ev;
     req_flags := CGFLAG_USECACHE |}.

Definition gid_request (ev : proc_event) (f : text) : request :=
  {| req_uid := q_eff (fst (find_label Uid_label f uninit));
     req_gid := Some (id_e ev);
     req_pid := process_pid ev;
     req_flags := CGFLAG_USECACHE |}.

Definition outcome_line (code : Z) : log_msg :=
  if code =? 0 then LogOk else LogFailed code.

(** The four ways in which the handling of a message can go. *)
Inductive handling (w : world) (ev : proc_event) : M Z -> Prop :=
| H_ignored :
    what ev <> PROC_EVENT_UID -> what ev <> PROC_EVENT_GID ->
    handling w ev (0, [])
| H_no_record head :
    proc_status w (process_pid ev) = None ->
    handling w ev
      (0, [Flog head;
           Flog (LogIds (process_pid ev) (process_tgid ev) (id_r ev) (id_e ev));
           Fopen (process_pid ev);
           Flog (LogFailedOpen (process_pid ev))])
| H_no_memory head f e :
    proc_status w (process_pid ev) = Some f ->
    calloc_errno w = Some e ->
    handling w ev
      (e, [Flog head;
           Flog (LogIds (process_pid ev) (process_tgid ev) (id_r ev) (id_e ev));
           Fopen (process_pid ev);
           Flog (LogOutOfMemory e)])
| H_dispatched head f rq :
    proc_status w (process_pid ev) = Some f ->
    calloc_errno w = None ->
    rq = uid_request ev f \/ rq = gid_request ev f ->
    handling w ev
      (policy w rq,
       [Flog head;
        Flog (LogIds (process_pid ev) (process_tgid ev) (id_r ev) (id_e ev));
        Fopen (process_pid ev);
        Flog (LogAttempt (process_pid ev) (req_uid rq) (req_gid rq));
        Reassign rq;
        Flog (outcome_line (policy w rq))]).

(* ================================================================== *)
(** ** cgre_create_netlink_socket_process_msg *)

(** One netlink message as the loop reads it through its casts: the header
    at [nlh], and the [proc_event] in the data of the connector message at
    [NLMSG_DATA(nlh)]. *)
Record frame := { hdr : nlmsghdr; event : proc_event }.

(** The receive buffer [buff], read through these casts at a byte offset. *)
Definition buffer := Z -> frame.

(** One call of [recvfrom]: the [ssize_t] it returns and the buffer as the
    call leaves it. *)
Record receive := { recv_ret : Z; recv_buf : buffer }.

(** The conversion of the [ssize_t] result to the [size_t] [recv_len]. *)
Definition to_size_t (v : Z) : Z := v mod 2 ^ 64.

(** How one turn of [while (NLMSG_OK(nlh, recv_len))] ends: [continue] or
    the end of the body with the [nlh] and [recv_len] of the next turn,
    [break], or [goto close_and_exit]. *)
Inductive flow :=
| Continue (off len : Z)
| Break
| GotoExit.

Definition loop_body (w : world) (buf : buffer) (off len : Z) : M flow :=
  let nlh := hdr (buf off) in
  if nlmsg_type nlh =? NLMSG_NOOP then
    ret (Continue off len)                                      (* continue *)
  else if (nlmsg_type nlh =? NLMSG_ERROR)
          || (nlmsg_type nlh =? NLMSG_OVERRUN) then
    ret Break
  else
    emit (HandleMsg off) ;;;
    r <- cgre_handle_msg w (event (buf off)) ;;
    if r <? 0 then ret GotoExit
    else if nlmsg_type nlh =? NLMSG_DONE then ret Break
    else ret (Continue (off + NLMSG_ALIGN (nlmsg_len nlh))      (* NLMSG_NEXT *)
                       (size_sub len (NLMSG_ALIGN (nlmsg_len nlh)))).

(** How the work on one receive ends. *)
Inductive batch_end :=
| NextReceive
| CloseAndExit.

Definition after {A} (t : trace) (r : option (M A)) : option (M A) :=
  option_map (fun '(a, t') => (a, t ++ t')) r.

(** The [while] loop; [None] when [fuel] turns were not enough. *)
Fixpoint frames_loop (fuel : nat) (w : world) (buf : buffer) (off len : Z)
  : option (M batch_end) :=
  match fuel with
  | O => None
  | S k =>
      if NLMSG_OK (hdr (buf off)) len then
        let '(fl, t) := loop_body w buf off len in
        match fl with
        | Continue off' len' => after t (frames_loop k w buf off' len')
        | Break => Some (NextReceive, t)
        | GotoExit => Some (CloseAndExit, t)
        end
      else Some (NextReceive, [])
  end.

(** One turn of the [for (;;)] loop, from [recvfrom] on. *)
Definition receive_once (fuel : nat) (w : world) (r : receive)
  : option (M batch_end) :=
  let recv_len := to_size_t (recv_ret r) in
  if recv_len =? ENOBUFS then
    Some (flog LogBufferFull ;;; ret NextReceive)               (* continue *)
  else if recv_len <? 1 then
    Some (ret NextReceive)                                      (* continue *)
  else frames_loop fuel w (recv_buf r) 0 recv_len.

(** Where the daemon is after the receives of a list: blocked in the next
    [recvfrom], or back from the function with its result. *)
Inductive daemon_state :=
| Listening
| Returned (rc : Z).

Fixpoint receive_loop (fuel : nat) (w : world) (rs : list receive)
  : option (M daemon_state) :=
  match rs with
  | [] => Some (ret Listening)
  | r :: rs' =>
      match receive_once fuel w r with
      | None => None
      | Some (CloseAndExit, t) => Some (Returned (-1), t)
      | Some (NextReceive, t) => after t (receive_loop fuel w rs')
      end
  end.

(** The results of [socket], [bind] and [send] before the loop. *)
Record channel_setup := { socket_ok : bool; bind_ok : bool; send_ok : bool }.

Definition cgre_create_netlink_socket_process_msg
  (fuel : nat) (w : world) (s : channel_setup) (rs : list receive)
  : option (M daemon_state) :=
  if negb (socket_ok s) then Some (ret (Returned (-1)))
  else if negb (bind_ok s) then Some (ret (Returned (-1)))
  else if negb (send_ok s) then Some (ret (Returned (-1)))
  else receive_loop fuel w rs.

(* ================================================================== *)
(** ** Buffers that hold back-to-back messages *)

Definition zero_event : proc_event :=
  {| what := 0; process_pid := 0; process_tgid := 0; id_r := 0; id_e := 0 |}.

Definition zero_frame : frame :=
  {| hdr := {| nlmsg_len := 0; nlmsg_type := 0 |}; event := zero_event |}.

Definition frame_len (f : frame) : Z := nlmsg_len (hdr f).
Definition frame_type (f : frame) : Z := nlmsg_type (hdr f).

(** The room a message takes in a datagram: its declared length, padded to
    the netlink alignment. *)
Definition frame_space (f : frame) : Z := NLMSG_ALIGN (frame_len f).

(** [nlh] and [recv_len] after [NLMSG_NEXT] on the message [f]. *)
Definition next_turn (f : frame) (off len : Z) : flow :=
  Continue (off + frame_space f) (size_sub len (frame_space f)).

(** A declared length that covers the header and fits [__u32] with its
    padding. *)
Definition frame_ok (f : frame) : Prop :=
  NLMSG_HDRLEN <= frame_len f <= 2 ^ 32 - 4.

(** [holds buf off fs]: the messages [fs] lie back to back in [buf] from
    offset [off] on. *)
Fixpoint holds (buf : buffer) (off : Z) (fs : list frame) : Prop :=
  match fs with
  | [] => True
  | f :: r => buf off = f /\ holds buf (off + frame_space f) r
  end.

Fixpoint batch_len (fs : list frame) : Z :=
  match fs with
  | [] => 0
  | f :: r => frame_space f + batch_len r
  end.

(** The offsets of the messages of [fs] when the first is at [off]. *)
Fixpoint offsets (off : Z) (fs : list frame) : list Z :=
  match fs with
  | [] => []
  | f :: r => off :: offsets (off + frame_space f) r
  end.

(** The buffer that [memset] cleared and into which [recvfrom] then wrote
    the messages [fs] from offset [base] on. *)
Fixpoint place (fs : list frame) (base : Z) : buffer :=
  fun off =>
    match fs with
    | [] => zero_frame
    | f :: r => if off =? base then f else place r (base + frame_space f) off
    end.

(** The messages of a batch that the loop reaches: it stops in front of an
    error or overrun message and behind a message of type [NLMSG_DONE]. *)
Fixpoint reached (fs : list frame) : list frame :=
  match fs with
  | [] => []
  | f :: r =>
      if (frame_type f =? NLMSG_ERROR) || (frame_type f =? NLMSG_OVERRUN)
      then []
      else if frame_type f =? NLMSG_DONE then [f]
      else f :: reached r
  end.

(** The actions of handling the messages [fs], one after the other. *)
Fixpoint batch_trace (w : world) (off : Z) (fs : list frame) : trace :=
  match fs with
  | [] => []
  | f :: r =>
      HandleMsg off :: snd (cgre_handle_msg w (event f))
        ++ batch_trace w (off + frame_space f) r
  end.

(* ================================================================== *)
(** ** Sample inputs *)

Module Sample.

Definition txt (s : string) : text := list_ascii_of_string s.

(** A status record with the given lines, each closed by a newline. *)
Definition record (ls : list string) : text :=
  concat (map (fun s => txt s ++ [LF]) ls).

Definition status_full : text :=
  record ["Name: bash"; "Uid: 500 600 500 500"; "Gid: 30 40 30 30";
          "Groups: 30"]%string.

Definition status_no_gid : text :=
  record ["Name: bash"; "Uid: 500 600 500 500"]%string.

Definition status_two_gid : text :=
  record ["Name: bash"; "Gid: 30 40 30 30"; "Gid: 1 2 3 4"]%string.

Definition uid_event : proc_event :=
  {| what := PROC_EVENT_UID; process_pid := 100; process_tgid := 100;
     id_r := 1000; id_e := 2000 |}.

Definition gid_event : proc_event :=
  {| what := PROC_EVENT_GID; process_pid := 55; process_tgid := 55;
     id_r := 10; id_e := 20 |}.

(** [PROC_EVENT_FORK] is 1. *)
Definition fork_event : proc_event :=
  {| what := 1; process_pid := 7; process_tgid := 7; id_r := 8; id_e := 8 |}.

(** A procfs in which the processes 55 and 100 have the record [st] and no
    other process exists, with a libcgroup that answers [code]. *)
Definition world_of (st : text) (code : Z) : world :=
  {| proc_status := fun pid =>
       if (pid =? 100) || (pid =? 55) then Some st else None;
     calloc_errno := None;
     policy := fun _ => code |}.

(** A UID event for a process that has no status record. *)
Definition orphan_event : proc_event :=
  {| what := PROC_EVENT_UID; process_pid := 4242; process_tgid := 4242;
     id_r := 0; id_e := 1 |}.

(** The request for process [pid] with the credentials [uid] and [gid]. *)
Definition request_of (uid gid : option Z) (pid : Z) : request :=
  {| req_uid := uid; req_gid := gid; req_pid := pid;
     req_flags := CGFLAG_USECACHE |}.

Definition msg (type len : Z) (ev : proc_event) : frame :=
  {| hdr := {| nlmsg_len := len; nlmsg_type := type |}; event := ev |}.

(** A datagram that holds the messages [fs]. *)
Definition datagram (fs : list frame) : receive :=
  {| recv_ret := batch_len fs; recv_buf := place fs 0 |}.

(** A [recvfrom] that fails: it returns -1 and leaves the cleared buffer. *)
Definition failed_receive : receive :=
  {| recv_ret := -1; recv_buf := place [] 0 |}.

End Sample.

(* ================================================================== *)
(** ** Status lines as procfs prints them *)

(** The characters of a string of decimal digits. *)
Definition uint_text (d : Decimal.uint) : text :=
  list_ascii_of_string (NilEmpty.string_of_uint d).

(** The decimal digits of a number, as [%d] prints them. *)
Definition decimal (n : nat) : text := uint_text (Nat.to_uint n).


(** A text at which a run of digits ends: the end of the text, or a
    character that is no digit. *)
Definition stops (s : text) : Prop :=
  match s with
  | [] => True
  | c :: _ => isdigit c = false
  end.

(** A line with a label, one more character, and the numbers [ns] with the
    gaps [gaps] between them. *)
Fixpoint fields (ns : list nat) (gaps : list text) : text :=
  match ns, gaps with
  | [], _ => []
  | [n], _ => decimal n
  | n :: ns', g :: gaps' => decimal n ++ g ++ fields ns' gaps'
  | n :: _, [] => decimal n
  end.

Definition id_line (label : text) (sep : ascii) (ns : list nat)
  (gaps : list text) (tail : text) : text :=
  label ++ sep :: fields ns gaps ++ tail.

Definition TAB : ascii := "009"%char.


(* ================================================================== *)
(** ** More sample inputs *)

Module Cases.


(** A status record whose "Gid:" line holds one number only. *)
Definition short_status : text :=
  concat [Sample.txt "Name:" ++ [TAB] ++ Sample.txt "bash" ++ [LF];
          id_line Gid_label TAB [30%nat] [] [LF]].

End Cases.

(* ================================================================== *)
(** ** The process around the loop *)

(** The [FILE*] values that the daemon uses; a log file is known by its
    path. *)
Inductive stream :=
| Stdout
| Stderr
| LogTo (path : text).

Definition is_stdout (s : stream) : bool :=
  match s with Stdout => true | _ => false end.

(** The signals for which [main] installs handlers. *)
Inductive signal := SIGUSR2 | SIGINT | SIGTERM.

(** The texts that [main], [cgre_start_daemon] and the signal handlers
    write. *)
Inductive message :=
| MsgOnlyRoot                      (* "Error: Only root can start/stop ..." *)
| MsgUsage (arg : text)            (* usage(): "Invalid argument: %s" *)
| MsgLogFileIs (p : text)          (* "Log file is: %s" *)
| MsgInitFailed (code : Z)         (* "Error: libcgroup initialization failed" *)
| MsgCacheFailed (code : Z)        (* "Error: libcgroup failed to initialize rules cache" *)
| MsgLaunchFailed (code : Z)       (* "Error: Failed to launch the daemon" *)
| MsgSigusr2Failed                 (* "Failed to set up signal handler for SIGUSR2." *)
| MsgSignalFailed                  (* "Failed to set up the signal handler." *)
| MsgStarted                       (* "Started the CGroup Rules Engine Daemon." *)
| MsgForkFailed                    (* "Failed to fork" *)
| MsgDaemonMode                    (* "Starting in daemon mode." *)
| MsgLogOpenFailed (p : text)      (* "Failed to open log file %s ... Continuing anyway." *)
| MsgBanner                        (* "CGroup Rules Engine Daemon" *)
| MsgTime                          (* "Current time: %s" *)
| MsgOpenedLog (p : text)          (* "Opened log file: %s" *)
| MsgStdoutLog                     (* "Proceeding with stdout as log output." *)
| MsgPid                           (* "Proceeding with PID %d" *)
| MsgSetsidFailed                  (* "Failed to get a new SID" *)
| MsgChdirFailed                   (* "Failed to chdir to /" *)
| MsgReloading                     (* "Reloading rules configuration." *)
| MsgNewline
| MsgStopped                       (* "Stopped CGroup Rules Engine Daemon at %s" *)
| MsgRule.                         (* "====...====" *)

(** What the process does outside the receive loop, in program order;
    [Daemon t] is a run of the receive loop with the actions [t]. *)
Inductive step :=
| Write (to : stream) (m : message)
| Syslog (m : message)
| Fork
| Umask
| OpenLog (p : text)
| Setsid
| Chdir
| Close (fd : Z)
| Fclose (s : stream)
| CgroupInit
| CgroupInitRulesCache
| CgroupReload
| CgroupPrintRules (to : stream)
| Sigaction (sig : signal)
| Daemon (t : trace).

(** How a function of the process ends: it returns, the process ends in
    [exit], the process waits in [recvfrom], or the C program has left
    defined behaviour (a NULL stream or string is used, or [logp] is
    overrun). *)
Inductive outcome :=
| Return (code : Z)
| Exit (status : Z)
| Waiting
| Undefined.

(** What the system answers to the calls of the process. *)
Record system := {
  getuid : Z;
  cgroup_init : Z;
  cgroup_init_rules_cache : Z;
  fork : Z;
  fopen_log : text -> bool;      (* [fopen(path, "a")] gives a stream *)
  setsid : Z;
  chdir_root : Z;
  sigaction : signal -> Z
}.

(** [FILENAME_MAX] of <stdio.h>, the size of [logp]. *)
Definition FILENAME_MAX : nat := 4096.

(** The settings that the command line decides. *)
Record options := { logp : text; daemon : bool; logs : bool }.

Definition default_options : options :=
  {| logp := list_ascii_of_string "/root/cgrulesengd.log";
     daemon := true; logs := true |}.

Definition opt_log : text := list_ascii_of_string "--log".
Definition opt_nodaemon : text := list_ascii_of_string "--nodaemon".
Definition opt_nolog : text := list_ascii_of_string "--nolog".

(** How the loop over [argv] ends: at the end of the arguments; at an
    argument that is no option ([usage], [ret = 2]); at a "--log" that is
    the last argument, where [argv[i]] is the NULL behind the arguments and
    [strlen] is called on it; or at a path that does not fit [logp] with
    its terminator. *)
Inductive parsed :=
| Parsed (o : options)
| InvalidArgument (arg : text)
| NoOperand
| PathOverrun (p : text).

(** The loop [for (i = 1; i < argc; i++)] of [main], on [argv[1]] to
    [argv[argc - 1]]. *)
Fixpoint parse_args (args : list text) (o : options) : parsed :=
  match args with
  | [] => Parsed o
  | a :: rest =>
      if strncmp_eq a opt_log 5 then
        match rest with
        | [] => NoOperand
        | p :: rest' =>
            if (List.length p <? FILENAME_MAX)%nat
            then parse_args rest'
                   {| logp := p; daemon := daemon o; logs := logs o |}
            else PathOverrun p
        end
      else if strncmp_eq a opt_nodaemon 10 then
        parse_args rest {| logp := logp o; daemon := false; logs := logs o |}
      else if strncmp_eq a opt_nolog 7 then
        parse_args rest {| logp := logp o; daemon := daemon o; logs := false |}
      else InvalidArgument a
  end.

(** ** cgre_start_daemon *)

(** The block [if (logs) ... else ...]: the stream that [logfile] becomes,
    and the steps. *)
Definition open_log (sys : system) (lp : text) (lg : bool)
  : stream * list step :=
  if lg then
    if fopen_log sys lp then
      (LogTo lp, [OpenLog lp; Write (LogTo lp) MsgBanner;
                  Write (LogTo lp) MsgTime; Write Stdout (MsgOpenedLog lp)])
    else
      (Stdout, [OpenLog lp; Write Stderr (MsgLogOpenFailed lp)])
  else (Stdout, [Write Stdout MsgStdoutLog]).

(** The [else] branch of [if (!daemon)] and the end of the function: new
    session, root directory, standard descriptors. *)
Definition detach (sys : system) (lf : stream) : outcome * list step :=
  if setsid sys <? 0 then
    (Return 2, [Setsid; Write lf MsgSetsidFailed])
  else if chdir_root sys <? 0 then
    (Return 3, [Setsid; Chdir; Write lf MsgChdirFailed])
  else
    (Return 0, [Setsid; Chdir; Close 0]
               ++ (if is_stdout lf then [] else [Close 1])
               ++ [Close 2; Write lf MsgPid]).

(** [cgre_start_daemon(logp, daemon, logs)]: how it ends, the [logfile] it
    leaves (given the one it finds), and its steps.  The [dbg] line of the
    foreground branch prints in a debug build only and is left out. *)
Definition cgre_start_daemon (sys : system) (lp : text) (dm lg : bool)
  (logfile : option stream) : outcome * option stream * list step :=
  if dm then
    if fork sys <? 0 then
      (Return 1, logfile,
       [Fork; Syslog MsgForkFailed; Write Stderr MsgForkFailed])
    else if 0 <? fork sys then
      (Exit 0, logfile, [Fork; Write Stdout MsgDaemonMode])
    else
      let '(lf, t1) := open_log sys lp lg in
      let '(r, t2) := detach sys lf in
      (r, Some lf, [Fork; Umask] ++ t1 ++ t2)
  else
    let '(lf, t1) := open_log sys lp lg in
    (Return 0, Some lf,
     t1 ++ [Write lf MsgPid]
        ++ (if is_stdout lf then [] else [Write Stdout MsgPid])).

(** ** The signal handlers *)

Definition cgre_flash_rules (logfile : option stream) : outcome * list step :=
  match logfile with
  | None => (Undefined, [])
  | Some lf =>
      (Return 0, [Write lf MsgReloading; Write lf MsgTime; CgroupReload;
                  CgroupPrintRules lf; Write lf MsgNewline])
  end.

(** [if (logfile && logfile != stdout) fclose(logfile);] *)
Definition close_log (logfile : option stream) : list step :=
  match logfile with
  | Some lf => if is_stdout lf then [] else [Fclose lf]
  | None => []
  end.

Definition cgre_catch_term (logfile : option stream) : outcome * list step :=
  match logfile with
  | None => (Undefined, [])
  | Some lf =>
      (Exit 0, [Write lf MsgStopped; Write lf MsgRule; Write lf MsgRule]
               ++ close_log logfile)
  end.

(** ** main *)

(** [main] from the signal handlers on, with the [logfile] that
    [cgre_start_daemon] left. *)
Definition serve (fuel : nat) (sys : system) (w : world) (s : channel_setup)
  (rs : list receive) (logfile : option stream)
  : option (outcome * list step) :=
  if negb (sigaction sys SIGUSR2 =? 0) then
    match logfile with
    | None => Some (Undefined, [Sigaction SIGUSR2])
    | Some lf =>
        Some (Return (sigaction sys SIGUSR2),
              [Sigaction SIGUSR2; Write lf MsgSigusr2Failed]
              ++ close_log logfile)
    end
  else
    let ret := Z.lor (sigaction sys SIGINT) (sigaction sys SIGTERM) in
    let installed := [Sigaction SIGUSR2; Sigaction SIGINT; Sigaction SIGTERM] in
    match logfile with
    | None => Some (Undefined, installed)
    | Some lf =>
        if negb (ret =? 0) then
          Some (Return ret,
                installed ++ [Write lf MsgSignalFailed] ++ close_log logfile)
        else
          match cgre_create_netlink_socket_process_msg fuel w s rs with
          | None => None
          | Some (Listening, t) =>
              Some (Waiting,
                    installed ++ [CgroupPrintRules lf; Write lf MsgStarted;
                                  Daemon t])
          | Some (Returned rc, t) =>
              Some (Return rc,
                    installed ++ [CgroupPrintRules lf; Write lf MsgStarted;
                                  Daemon t] ++ close_log logfile)
          end
    end.

Definition main (fuel : nat) (sys : system) (w : world) (s : channel_setup)
  (rs : list receive) (args : list text) : option (outcome * list step) :=
  if negb (getuid sys =? 0) then
    Some (Return 1, [Write Stderr MsgOnlyRoot])
  else
    match parse_args args default_options with
    | InvalidArgument a => Some (Return 2, [Write Stderr (MsgUsage a)])
    | NoOperand => Some (Undefined, [])
    | PathOverrun _ => Some (Undefined, [])
    | Parsed o =>
        if negb (cgroup_init sys =? 0) then
          Some (Return (cgroup_init sys),
                [Write Stdout (MsgLogFileIs (logp o)); CgroupInit;
                 Write Stderr (MsgInitFailed (cgroup_init sys))])
        else if negb (cgroup_init_rules_cache sys =? 0) then
          Some (Return (cgroup_init_rules_cache sys),
                [Write Stdout (MsgLogFileIs (logp o)); CgroupInit;
                 CgroupInitRulesCache;
                 Write Stderr (MsgCacheFailed (cgroup_init_rules_cache sys))])
        else
          let '(r, logfile, t) :=
            cgre_start_daemon sys (logp o) (daemon o) (logs o) None in
          let before := [Write Stdout (MsgLogFileIs (logp o)); CgroupInit;
                         CgroupInitRulesCache] ++ t in
          match r with
          | Return ret =>
              if ret <? 0 then
                Some (Return ret,
                      before ++ [Write Stderr (MsgLaunchFailed ret)]
                             ++ close_log logfile)
              else
                option_map (fun '(o', t') => (o', before ++ t'))
                           (serve fuel sys w s rs logfile)
          | other => Some (other, before)
          end
    end.

(** ** Command lines *)

(** The options that a command line can give. *)
Inductive flag :=
| FLog (p : text)
| FNoDaemon
| FNoLog.

(** The arguments that give an option. *)
Definition render (f : flag) : list text :=
  match f with
  | FLog p => [opt_log; p]
  | FNoDaemon => [opt_nodaemon]
  | FNoLog => [opt_nolog]
  end.

(** What an option does to the settings. *)
Definition apply_flag (o : options) (f : flag) : options :=
  match f with
  | FLog p => {| logp := p; daemon := daemon o; logs := logs o |}
  | FNoDaemon => {| logp := logp o; daemon := false; logs := logs o |}
  | FNoLog => {| logp := logp o; daemon := daemon o; logs := false |}
  end.

(** A path that fits [logp] with its terminator. *)
Definition flag_fits (f : flag) : Prop :=
  match f with
  | FLog p => (List.length p < FILENAME_MAX)%nat
  | _ => True
  end.

(* ================================================================== *)
(** ** Sample systems *)

Module Hosts.

(** A system that answers [uid] to [getuid], [fk] to [fork], [sid] to
    [setsid] and [usr2] to the [sigaction] for SIGUSR2, opens every log
    file, and lets every other call succeed. *)
Definition host (uid fk sid usr2 : Z) : system :=
  {| getuid := uid;
     cgroup_init := 0;
     cgroup_init_rules_cache := 0;
     fork := fk;
     fopen_log := fun _ => true;
     setsid := sid;
     chdir_root := 0;
     sigaction := fun sig => match sig with SIGUSR2 => usr2 | _ => 0 end |}.

Definition channel_up : channel_setup :=
  {| socket_ok := true; bind_ok := true; send_ok := true |}.

(** One datagram with a process event whose handling libcgroup answers
    with -1 in the world below. *)
Definition one_event : list receive :=
  [Sample.datagram [Sample.msg NLMSG_DONE 76 Sample.uid_event]].

Definition log_path : text := logp default_options.

(** The steps of [main] up to the opening of the log file, in daemon mode
    when [forked] and in the foreground otherwise. *)
Definition steps_to_log (forked : bool) : list step :=
  [Write Stdout (MsgLogFileIs log_path); CgroupInit; CgroupInitRulesCache]
  ++ (if forked then [Fork; Umask] else [])
  ++ [OpenLog log_path; Write (LogTo log_path) MsgBanner;
      Write (LogTo log_path) MsgTime; Write Stdout (MsgOpenedLog log_path)].

(** The steps of [main] in daemon mode when [setsid] fails and the one
    receive yields nothing. *)
Definition steps_setsid_failed : list step :=
  steps_to_log true
  ++ [Setsid; Write (LogTo log_path) MsgSetsidFailed;
      Sigaction SIGUSR2; Sigaction SIGINT; Sigaction SIGTERM;
      CgroupPrintRules (LogTo log_path); Write (LogTo log_path) MsgStarted;
      Daemon []].

(** The actions of the loop on [one_event] when libcgroup answers -1. *)
Definition loop_left : trace :=
  HandleMsg 0
  :: snd (cgre_handle_msg (Sample.world_of Sample.status_full (-1))
                          Sample.uid_event).

(** The steps of [main] in the foreground when the loop is left on
    [one_event]. *)
Definition steps_loop_left : list step :=
  steps_to_log false
  ++ [Write (LogTo log_path) MsgPid; Write Stdout MsgPid;
      Sigaction SIGUSR2; Sigaction SIGINT; Sigaction SIGTERM;
      CgroupPrintRules (LogTo log_path); Write (LogTo log_path) MsgStarted;
      Daemon loop_left; Fclose (LogTo log_path)].

(** The steps of [main] in daemon mode when the handler for SIGUSR2 cannot
    be installed. *)
Definition steps_sigusr2_failed : list step :=
  steps_to_log true
  ++ [Setsid; Chdir; Close 0; Close 1; Close 2;
      Write (LogTo log_path) MsgPid; Sigaction SIGUSR2;
      Write (LogTo log_path) MsgSigusr2Failed; Fclose (LogTo log_path)].

End Hosts.

(* ================================================================== *)
(** * Properties *)

(** ** The trace monad *)

Lemma bind_ret_l {A B} (a : A) (k : A -> M B) : bind (ret a) k = k a.
Proof. unfold bind, ret. destruct (k a); reflexivity. Qed.

Lemma bind_emit {B} (a : action) (k : unit -> M B) :
  bind (emit a) k = (fst (k tt), a :: snd (k tt)).
Proof. unfold bind, emit. destruct (k tt); reflexivity. Qed.

Lemma bind_flog {B} (m : log_msg) (k : unit -> M B) :
  bind (flog m) k = (fst (k tt), Flog m :: snd (k tt)).
Proof. apply bind_emit. Qed.

Lemma after_nil {A} (r : option (M A)) : after [] r = r.
Proof. destruct r as [[a t]|]; reflexivity. Qed.

Lemma handled_app t1 t2 : handled (t1 ++ t2) = handled t1 ++ handled t2.
Proof. apply flat_map_app. Qed.

Lemma requests_app t1 t2 : requests (t1 ++ t2) = requests t1 ++ requests t2.
Proof. apply flat_map_app. Qed.

(** ** Reading lines *)

Lemma read_line_app room f :
  fst (read_line room f) ++ snd (read_line room f) = f.
Proof.
  revert f; induction room as [|k IH]; intros [|c f']; simpl; try reflexivity.
  destruct (Ascii.eqb c LF); simpl; [reflexivity|].
  specialize (IH f'). destruct (read_line k f') as [l r]; simpl in *.
  now rewrite IH.
Qed.

Lemma read_line_cons room c f :
  read_line (S room) (c :: f) =
  if Ascii.eqb c LF then ([c], f)
  else (c :: fst (read_line room f), snd (read_line room f)).
Proof.
  simpl. destruct (Ascii.eqb c LF); [reflexivity|].
  destruct (read_line room f); reflexivity.
Qed.

Lemma read_line_rest_le room f :
  (List.length (snd (read_line room f)) <= List.length f)%nat.
Proof.
  revert f; induction room as [|k IH]; intros [|c f]; try (simpl; lia).
  rewrite read_line_cons. specialize (IH f).
  destruct (Ascii.eqb c LF); simpl; lia.
Qed.

Lemma read_line_progress room c f :
  (List.length (snd (read_line (S room) (c :: f))) <= List.length f)%nat.
Proof.
  rewrite read_line_cons. pose proof (read_line_rest_le room f).
  destruct (Ascii.eqb c LF); simpl; lia.
Qed.

Lemma fgets_some_gen size f line f' :
  (1 < size)%nat ->
  fgets size f = Some (line, f') ->
  line ++ f' = f /\ (List.length f' < List.length f)%nat.
Proof.
  intros Hs. destruct size as [|[|n]]; try lia.
  destruct f as [|c f0]; [discriminate|].
  unfold fgets. replace (S (S n) - 1)%nat with (S n) by lia.
  intros H.
  assert (E : read_line (S n) (c :: f0) = (line, f')) by congruence.
  clear H. split.
  - pose proof (read_line_app (S n) (c :: f0)) as P.
    rewrite E in P. exact P.
  - pose proof (read_line_progress n c f0) as P.
    rewrite E in P. simpl in *. lia.
Qed.

Lemma fgets_some f line f' :
  fgets BUF_SIZE f = Some (line, f') ->
  line ++ f' = f /\ (List.length f' < List.length f)%nat.
Proof. apply fgets_some_gen. unfold BUF_SIZE. lia. Qed.

Lemma fgets_lines_concat n f :
  (List.length f <= n)%nat -> concat (fgets_lines n f) = f.
Proof.
  revert f; induction n as [|k IH]; intros f Hn.
  - destruct f; [reflexivity | simpl in Hn; lia].
  - cbn [fgets_lines].
    destruct (fgets BUF_SIZE f) as [[line f']|] eqn:E.
    + apply fgets_some in E as [<- Hl]. simpl.
      rewrite IH by lia. reflexivity.
    + destruct f; [reflexivity | discriminate].
Qed.

(** The loop reads the stream line by line up to the first line that
    carries the label, parses that one, and leaves the lines behind it
    unread. *)
Lemma scan_status_found label n f q pre l post :
  (List.length f <= n)%nat ->
  fgets_lines n f = pre ++ l :: post ->
  Forall (fun x => has_label label x = false) pre ->
  has_label label l = true ->
  scan_status n label f q = (parse_ids l q, concat post).
Proof.
  revert f pre; induction n as [|k IH]; intros f pre Hn Hl Hpre Hlab.
  - destruct pre; discriminate.
  - cbn [fgets_lines scan_status] in *.
    destruct (fgets BUF_SIZE f) as [[line f']|] eqn:E;
      [|destruct pre; discriminate].
    apply fgets_some in E as [<- Hlen].
    destruct pre as [|p pre'].
    + simpl in Hl. injection Hl as -> Hpost.
      fold (has_label label l). rewrite Hlab.
      fold (parse_ids l q). rewrite <- Hpost, fgets_lines_concat by lia.
      reflexivity.
    + simpl in Hl. injection Hl as -> Hrest.
      fold (has_label label p).
      inversion Hpre as [|? ? Hp Hpre']; subst.
      rewrite Hp. apply IH with (pre := pre'); auto; lia.
Qed.

(** Without such a line the loop runs to the end of the stream and assigns
    nothing. *)
Lemma scan_status_absent label n f q :
  (List.length f <= n)%nat ->
  Forall (fun x => has_label label x = false) (fgets_lines n f) ->
  scan_status n label f q = (q, []).
Proof.
  revert f; induction n as [|k IH]; intros f Hn Hall.
  - destruct f; [reflexivity | simpl in Hn; lia].
  - cbn [fgets_lines scan_status] in *.
    destruct (fgets BUF_SIZE f) as [[line f']|] eqn:E.
    + apply fgets_some in E as [<- Hlen].
      inversion Hall as [|? ? Hp Hrest]; subst.
      fold (has_label label line). rewrite Hp. apply IH; auto; lia.
    + destruct f; [reflexivity | discriminate].
Qed.

(** The fuel of [find_label] is enough: more changes nothing. *)
Lemma scan_status_fuel_irrelevant label q n m f :
  (List.length f <= n)%nat -> (List.length f <= m)%nat ->
  scan_status n label f q = scan_status m label f q.
Proof.
  revert m f; induction n as [|k IH]; intros m f Hn Hm.
  - destruct f; [destruct m; reflexivity | simpl in Hn; lia].
  - destruct m as [|m'].
    + destruct f; [reflexivity | simpl in Hm; lia].
    + cbn [scan_status].
      destruct (fgets BUF_SIZE f) as [[line f']|] eqn:E; [|reflexivity].
      apply fgets_some in E as [<- Hlen].
      destruct (strncmp_eq _ label 4); [reflexivity|].
      apply IH; lia.
Qed.

Lemma scan_status_fuel label n f q :
  (List.length f <= n)%nat ->
  scan_status n label f q = find_label label f q.
Proof.
  intros Hn. unfold find_label.
  apply scan_status_fuel_irrelevant; [exact Hn | lia].
Qed.

(** ** Labels *)

(** [strncmp] stops at the NUL that [fgets] wrote behind the line. *)
Lemma strncmp_eq_store n l rest b :
  strncmp_eq (l ++ NUL :: rest) b n = strncmp_eq l b n.
Proof.
  revert l b; induction n as [|k IH]; intros l b; [reflexivity|].
  destruct l as [|c l']; simpl.
  - reflexivity.
  - rewrite IH. reflexivity.
Qed.

Lemma has_label_strncmp label l : has_label label l = strncmp_eq l label 4.
Proof. unfold has_label, store_line. apply strncmp_eq_store. Qed.

Lemma strncmp_eq_4 a b c d l :
  a <> NUL -> b <> NUL -> c <> NUL -> d <> NUL ->
  strncmp_eq l [a; b; c; d] 4 = true <-> firstn 4 l = [a; b; c; d].
Proof.
  intros Ha Hb Hc Hd.
  destruct l as [|x1 [|x2 [|x3 [|x4 r]]]]; cbn [strncmp_eq hd tl firstn];
    repeat match goal with
           | |- context [Ascii.eqb ?x ?y] =>
               destruct (Ascii.eqb_spec x y); subst
           end;
    split; intros H; try reflexivity; try discriminate; try congruence.
Qed.

(** A line carries a label exactly when its first four bytes are the
    label. *)
Lemma has_label_Gid l :
  has_label Gid_label l = true <-> firstn 4 l = Gid_label.
Proof.
  rewrite has_label_strncmp. apply strncmp_eq_4; discriminate.
Qed.

Lemma has_label_Uid l :
  has_label Uid_label l = true <-> firstn 4 l = Uid_label.
Proof.
  rewrite has_label_strncmp. apply strncmp_eq_4; discriminate.
Qed.

Lemma has_label_false label l :
  label = Gid_label \/ label = Uid_label ->
  firstn 4 l <> label -> has_label label l = false.
Proof.
  intros [-> | ->] H.
  - destruct (has_label Gid_label l) eqn:E; [|reflexivity].
    apply has_label_Gid in E. contradiction.
  - destruct (has_label Uid_label l) eqn:E; [|reflexivity].
    apply has_label_Uid in E. contradiction.
Qed.

(** ** Text made of lines is read line by line *)

Lemma read_line_line body : forall room rest,
  ~ In LF body -> (List.length body < room)%nat ->
  read_line room (body ++ LF :: rest) = (body ++ [LF], rest).
Proof.
  induction body as [|c body IH]; intros room rest Hno Hlen.
  - destruct room; [simpl in Hlen; lia|]. reflexivity.
  - destruct room; [simpl in Hlen; lia|].
    change ((c :: body) ++ LF :: rest) with (c :: (body ++ LF :: rest)).
    rewrite read_line_cons.
    destruct (Ascii.eqb_spec c LF) as [->|_].
    + exfalso. apply Hno. left; reflexivity.
    + rewrite IH; [reflexivity | | simpl in Hlen; lia].
      intros Hin. apply Hno. right; exact Hin.
Qed.

Lemma fgets_line l rest :
  is_line l -> fgets BUF_SIZE (l ++ rest) = Some (l, rest).
Proof.
  intros (body & -> & Hno & Hlen).
  rewrite <- app_assoc. simpl ([LF] ++ rest).
  rewrite length_app in Hlen. simpl in Hlen.
  unfold fgets.
  destruct (body ++ LF :: rest) as [|c r] eqn:E.
  - destruct body; discriminate.
  - rewrite <- E. f_equal. apply read_line_line; [exact Hno|].
    unfold BUF_SIZE in *. lia.
Qed.

Lemma fgets_lines_of_lines ls : forall n,
  Forall is_line ls -> (List.length (concat ls) <= n)%nat ->
  fgets_lines n (concat ls) = ls.
Proof.
  induction ls as [|l ls IH]; intros n Hall Hn.
  - destruct n; reflexivity.
  - inversion Hall as [|? ? Hl Hrest]; subst.
    simpl in Hn. rewrite length_app in Hn.
    assert (0 < List.length l)%nat.
    { destruct Hl as (body & -> & _). rewrite length_app. simpl. lia. }
    destruct n as [|k]; [lia|].
    simpl. rewrite (fgets_line l (concat ls) Hl).
    rewrite IH; [reflexivity | exact Hrest | lia].
Qed.

(** For a status record made of such lines, the lines that the loop sees
    are the lines of the record. *)
Lemma status_lines_of_lines ls :
  Forall is_line ls -> status_lines (concat ls) = ls.
Proof.
  intros H. unfold status_lines. apply fgets_lines_of_lines; [exact H | lia].
Qed.

(** ** Netlink alignment *)

Lemma NLMSG_ALIGN_div len :
  NLMSG_ALIGN len = (len + 3) mod 2 ^ 32 / 4 * 4.
Proof.
  unfold NLMSG_ALIGN.
  set (y := (len + 3) mod 2 ^ 32).
  assert (Hy : 0 <= y < 2 ^ 32) by (apply Z.mod_pos_bound; lia).
  change (2 ^ 32 - 4) with (Z.land (Z.ones 32) (Z.lnot (Z.ones 2))).
  rewrite Z.land_assoc, Z.land_ones by lia.
  rewrite (Z.mod_small y) by lia.
  rewrite <- Z.ldiff_land, Z.ldiff_ones_r by lia.
  rewrite Z.shiftr_div_pow2, Z.shiftl_mul_pow2 by lia.
  reflexivity.
Qed.

Lemma NLMSG_ALIGN_bounds len :
  0 <= len <= 2 ^ 32 - 4 ->
  len <= NLMSG_ALIGN len < len + 4 /\ NLMSG_ALIGN len <= 2 ^ 32 - 4.
Proof.
  intros H. rewrite NLMSG_ALIGN_div.
  rewrite Z.mod_small by lia.
  pose proof (Z.div_mod (len + 3) 4 ltac:(lia)) as D.
  pose proof (Z.mod_pos_bound (len + 3) 4 ltac:(lia)) as B.
  pose proof (Z.div_le_mono (len + 3) (2 ^ 32 - 1) 4 ltac:(lia) ltac:(lia)) as U.
  change ((2 ^ 32 - 1) / 4) with (2 ^ 30 - 1) in U.
  lia.
Qed.

Lemma NLMSG_ALIGN_aligned len :
  0 <= len <= 2 ^ 32 - 4 -> len mod 4 = 0 -> NLMSG_ALIGN len = len.
Proof.
  intros H Hm. rewrite NLMSG_ALIGN_div.
  rewrite Z.mod_small by lia.
  pose proof (Z.div_mod len 4 ltac:(lia)) as D.
  replace (len + 3) with (3 + len / 4 * 4) by lia.
  rewrite Z.div_add by lia.
  change (3 / 4) with 0. lia.
Qed.

(** ** The paths through cgre_process_event and cgre_handle_msg *)

Lemma process_event_no_record w ev type :
  proc_status w (process_pid ev) = None ->
  cgre_process_event w ev type =
  (0, [Fopen (process_pid ev); Flog (LogFailedOpen (process_pid ev))]).
Proof. intros H. unfold cgre_process_event. rewrite H. reflexivity. Qed.

Lemma process_event_no_memory w ev type f e :
  proc_status w (process_pid ev) = Some f ->
  calloc_errno w = Some e ->
  cgre_process_event w ev type =
  (e, [Fopen (process_pid ev); Flog (LogOutOfMemory e)]).
Proof.
  intros H1 H2. unfold cgre_process_event. rewrite H1, H2. reflexivity.
Qed.

Lemma process_event_uid w ev f :
  proc_status w (process_pid ev) = Some f ->
  calloc_errno w = None ->
  cgre_process_event w ev PROC_EVENT_UID =
  (policy w (uid_request ev f),
   [Fopen (process_pid ev);
    Flog (LogAttempt (process_pid ev) (req_uid (uid_request ev f))
                     (req_gid (uid_request ev f)));
    Reassign (uid_request ev f);
    Flog (outcome_line (policy w (uid_request ev f)))]).
Proof.
  intros H1 H2. unfold cgre_process_event. rewrite H1, H2. reflexivity.
Qed.

Lemma process_event_gid w ev f :
  proc_status w (process_pid ev) = Some f ->
  calloc_errno w = None ->
  cgre_process_event w ev PROC_EVENT_GID =
  (policy w (gid_request ev f),
   [Fopen (process_pid ev);
    Flog (LogAttempt (process_pid ev) (req_uid (gid_request ev f))
                     (req_gid (gid_request ev f)));
    Reassign (gid_request ev f);
    Flog (outcome_line (policy w (gid_request ev f)))]).
Proof.
  intros H1 H2. unfold cgre_process_event. rewrite H1, H2. reflexivity.
Qed.

Lemma handle_msg_uid w ev :
  what ev = PROC_EVENT_UID ->
  cgre_handle_msg w ev =
  (fst (cgre_process_event w ev PROC_EVENT_UID),
   Flog LogUidEvent
   :: Flog (LogIds (process_pid ev) (process_tgid ev) (id_r ev) (id_e ev))
   :: snd (cgre_process_event w ev PROC_EVENT_UID)).
Proof.
  intros H. unfold cgre_handle_msg. rewrite H.
  change (PROC_EVENT_UID =? PROC_EVENT_UID) with true. cbv iota.
  rewrite !bind_flog. reflexivity.
Qed.

Lemma handle_msg_gid w ev :
  what ev = PROC_EVENT_GID ->
  cgre_handle_msg w ev =
  (fst (cgre_process_event w ev PROC_EVENT_GID),
   Flog LogGidEvent
   :: Flog (LogIds (process_pid ev) (process_tgid ev) (id_r ev) (id_e ev))
   :: snd (cgre_process_event w ev PROC_EVENT_GID)).
Proof.
  intros H. unfold cgre_handle_msg. rewrite H.
  change (PROC_EVENT_GID =? PROC_EVENT_UID) with false.
  change (PROC_EVENT_GID =? PROC_EVENT_GID) with true. cbv iota.
  rewrite !bind_flog. reflexivity.
Qed.

Lemma handle_msg_other w ev :
  what ev <> PROC_EVENT_UID -> what ev <> PROC_EVENT_GID ->
  cgre_handle_msg w ev = (0, []).
Proof.
  intros H1 H2. unfold cgre_handle_msg.
  destruct (Z.eqb_spec (what ev) PROC_EVENT_UID); [contradiction|].
  destruct (Z.eqb_spec (what ev) PROC_EVENT_GID); [contradiction|].
  reflexivity.
Qed.

Lemma handle_msg_handling w ev : handling w ev (cgre_handle_msg w ev).
Proof.
  destruct (Z.eq_dec (what ev) PROC_EVENT_UID) as [Hu|Hu];
    [|destruct (Z.eq_dec (what ev) PROC_EVENT_GID) as [Hg|Hg]].
  - rewrite (handle_msg_uid w ev Hu).
    destruct (proc_status w (process_pid ev)) as [f|] eqn:Hs.
    + destruct (calloc_errno w) as [e|] eqn:Hc.
      * rewrite (process_event_no_memory w ev _ f e Hs Hc).
        eapply H_no_memory; eauto.
      * rewrite (process_event_uid w ev f Hs Hc).
        eapply H_dispatched; eauto.
    + rewrite (process_event_no_record w ev _ Hs). apply H_no_record; auto.
  - rewrite (handle_msg_gid w ev Hg).
    destruct (proc_status w (process_pid ev)) as [f|] eqn:Hs.
    + destruct (calloc_errno w) as [e|] eqn:Hc.
      * rewrite (process_event_no_memory w ev _ f e Hs Hc).
        eapply H_no_memory; eauto.
      * rewrite (process_event_gid w ev f Hs Hc).
        eapply H_dispatched; eauto.
    + rewrite (process_event_no_record w ev _ Hs). apply H_no_record; auto.
  - rewrite (handle_msg_other w ev Hu Hg). apply H_ignored; auto.
Qed.

Lemma handle_msg_handled w ev : handled (snd (cgre_handle_msg w ev)) = [].
Proof. destruct (handle_msg_handling w ev); reflexivity. Qed.

(** A request in the trace of a message is the one whose code the handling
    returns and reports. *)
Lemma handle_msg_reassign w ev rq :
  In (Reassign rq) (snd (cgre_handle_msg w ev)) ->
  fst (cgre_handle_msg w ev) = policy w rq
  /\ In (Flog (outcome_line (policy w rq))) (snd (cgre_handle_msg w ev)).
Proof.
  destruct (handle_msg_handling w ev) as [ | | |head f rq' Hs Hc Hrq];
    simpl; intros Hin; try contradiction;
    repeat (destruct Hin as [Hin|Hin]; try discriminate; try contradiction).
  assert (E : rq' = rq) by congruence.
  rewrite <- E. split; [reflexivity|]. auto 10.
Qed.

(** ** One turn of the frame loop *)

Lemma loop_body_noop w buf off len :
  frame_type (buf off) = NLMSG_NOOP ->
  loop_body w buf off len = (Continue off len, []).
Proof.
  unfold loop_body, frame_type. intros ->. reflexivity.
Qed.

Lemma loop_body_error w buf off len :
  frame_type (buf off) = NLMSG_ERROR \/ frame_type (buf off) = NLMSG_OVERRUN ->
  loop_body w buf off len = (Break, []).
Proof.
  unfold loop_body, frame_type. intros [-> | ->]; reflexivity.
Qed.

Lemma loop_body_handle w buf off len :
  frame_type (buf off) <> NLMSG_NOOP ->
  frame_type (buf off) <> NLMSG_ERROR ->
  frame_type (buf off) <> NLMSG_OVERRUN ->
  loop_body w buf off len =
  ((if fst (cgre_handle_msg w (event (buf off))) <? 0 then GotoExit
    else if frame_type (buf off) =? NLMSG_DONE then Break
    else next_turn (buf off) off len),
   HandleMsg off :: snd (cgre_handle_msg w (event (buf off)))).
Proof.
  unfold loop_body, frame_type, next_turn, frame_space, frame_len.
  intros H1 H2 H3.
  destruct (Z.eqb_spec (nlmsg_type (hdr (buf off))) NLMSG_NOOP);
    [contradiction|].
  destruct (Z.eqb_spec (nlmsg_type (hdr (buf off))) NLMSG_ERROR);
    [contradiction|].
  destruct (Z.eqb_spec (nlmsg_type (hdr (buf off))) NLMSG_OVERRUN);
    [contradiction|].
  cbn [orb]. rewrite bind_emit.
  unfold bind, ret.
  destruct (cgre_handle_msg w (event (buf off))) as [r t]. cbn [fst snd].
  destruct (r <? 0); [|destruct (_ =? NLMSG_DONE)];
    cbn [fst snd]; rewrite app_nil_r; reflexivity.
Qed.

(** A message that was handled has none of the three types that the loop
    sets aside. *)
Lemma loop_body_handled_type w buf off len a :
  In a (snd (loop_body w buf off len)) ->
  frame_type (buf off) <> NLMSG_NOOP
  /\ frame_type (buf off) <> NLMSG_ERROR
  /\ frame_type (buf off) <> NLMSG_OVERRUN.
Proof.
  intros Hin.
  destruct (Z.eq_dec (frame_type (buf off)) NLMSG_NOOP) as [E|E1].
  { rewrite (loop_body_noop _ _ _ _ E) in Hin. destruct Hin. }
  destruct (Z.eq_dec (frame_type (buf off)) NLMSG_ERROR) as [E|E2].
  { rewrite loop_body_error in Hin by (left; exact E). destruct Hin. }
  destruct (Z.eq_dec (frame_type (buf off)) NLMSG_OVERRUN) as [E|E3].
  { rewrite loop_body_error in Hin by (right; exact E). destruct Hin. }
  auto.
Qed.

(** ** The frame loop *)

Lemma frames_loop_step k w buf off len :
  NLMSG_OK (hdr (buf off)) len = true ->
  frames_loop (S k) w buf off len =
  match fst (loop_body w buf off len) with
  | Continue off' len' =>
      after (snd (loop_body w buf off len)) (frames_loop k w buf off' len')
  | Break => Some (NextReceive, snd (loop_body w buf off len))
  | GotoExit => Some (CloseAndExit, snd (loop_body w buf off len))
  end.
Proof.
  intros H. cbn [frames_loop]. rewrite H.
  destruct (loop_body w buf off len) as [fl t]. reflexivity.
Qed.

(** A no-op message under [nlh] keeps the loop on that message: [continue]
    jumps to the test with [nlh] and [recv_len] as they were. *)
Lemma frames_loop_noop_spins w buf off len :
  NLMSG_OK (hdr (buf off)) len = true ->
  frame_type (buf off) = NLMSG_NOOP ->
  forall fuel, frames_loop fuel w buf off len = None.
Proof.
  intros Hok Hno fuel. induction fuel as [|k IH]; [reflexivity|].
  rewrite frames_loop_step by exact Hok.
  rewrite (loop_body_noop _ _ _ _ Hno). cbn [fst snd].
  rewrite IH. reflexivity.
Qed.

Lemma batch_len_nonneg fs : Forall frame_ok fs -> 0 <= batch_len fs.
Proof.
  induction 1 as [|f r Hf _ IH]; simpl; [lia|].
  pose proof (NLMSG_ALIGN_bounds (frame_len f)) as B.
  unfold frame_ok, NLMSG_HDRLEN, frame_space in *. lia.
Qed.

Lemma handled_batch_trace w fs : forall off,
  handled (batch_trace w off fs) = offsets off fs.
Proof.
  induction fs as [|f r IH]; intros off; [reflexivity|].
  cbn [batch_trace offsets].
  change (handled (HandleMsg off :: ?t)) with (off :: handled t).
  rewrite handled_app, handle_msg_handled, IH. reflexivity.
Qed.

Lemma reached_all fs :
  Forall (fun f => frame_type f <> NLMSG_ERROR /\ frame_type f <> NLMSG_OVERRUN
                   /\ frame_type f <> NLMSG_DONE) fs ->
  reached fs = fs.
Proof.
  induction 1 as [|f r (H1 & H2 & H3) _ IH]; [reflexivity|].
  cbn [reached].
  destruct (Z.eqb_spec (frame_type f) NLMSG_ERROR); [contradiction|].
  destruct (Z.eqb_spec (frame_type f) NLMSG_OVERRUN); [contradiction|].
  destruct (Z.eqb_spec (frame_type f) NLMSG_DONE); [contradiction|].
  cbn [orb]. rewrite IH. reflexivity.
Qed.

(** The loop on a buffer of back-to-back messages: it handles the reached
    messages in buffer order and then waits for the next receive. *)
Lemma frames_loop_batch w buf fs : forall off fuel,
  Forall frame_ok fs ->
  holds buf off fs ->
  batch_len fs < 2 ^ 64 ->
  Forall (fun f => frame_type f <> NLMSG_NOOP) fs ->
  Forall (fun f => 0 <= fst (cgre_handle_msg w (event f))) fs ->
  (List.length fs < fuel)%nat ->
  frames_loop fuel w buf off (batch_len fs)
  = Some (NextReceive, batch_trace w off (reached fs)).
Proof.
  induction fs as [|f r IH]; intros off fuel Hok Hh Hlen Hno Hret Hfuel.
  - destruct fuel as [|k]; [simpl in Hfuel; lia|]. reflexivity.
  - destruct fuel as [|k]; [simpl in Hfuel; lia|].
    inversion Hok as [|? ? Hf Hok']; subst.
    inversion Hno as [|? ? Hn Hno']; subst.
    inversion Hret as [|? ? Hr Hret']; subst.
    destruct Hh as [Hbuf Hh'].
    pose proof (batch_len_nonneg r Hok') as Hr0.
    pose proof (NLMSG_ALIGN_bounds (frame_len f)) as B.
    cbn [batch_len] in *. unfold frame_space in *.
    assert (Hf' := Hf). unfold frame_ok, NLMSG_HDRLEN in Hf'.
    specialize (B ltac:(lia)).
    rewrite frames_loop_step.
    2:{ rewrite Hbuf. unfold NLMSG_OK, NLMSG_HDRLEN. fold (frame_len f).
        apply andb_true_intro; split;
          [apply andb_true_intro; split|]; apply Z.leb_le; lia. }
    cbn [reached].
    destruct (Z.eq_dec (frame_type f) NLMSG_ERROR) as [E|E2].
    { rewrite loop_body_error by (rewrite Hbuf; left; exact E).
      rewrite E. reflexivity. }
    destruct (Z.eq_dec (frame_type f) NLMSG_OVERRUN) as [E|E3].
    { rewrite loop_body_error by (rewrite Hbuf; right; exact E).
      rewrite E. reflexivity. }
    rewrite loop_body_handle by (rewrite Hbuf; assumption).
    rewrite Hbuf. cbn [fst snd].
    destruct (Z.ltb_spec (fst (cgre_handle_msg w (event f))) 0); [lia|].
    destruct (Z.eqb_spec (frame_type f) NLMSG_ERROR); [contradiction|].
    destruct (Z.eqb_spec (frame_type f) NLMSG_OVERRUN); [contradiction|].
    cbn [orb].
    destruct (Z.eqb_spec (frame_type f) NLMSG_DONE).
    + cbn [batch_trace]. rewrite app_nil_r. reflexivity.
    + unfold next_turn, frame_space, size_sub.
      replace ((NLMSG_ALIGN (frame_len f) + batch_len r
                - NLMSG_ALIGN (frame_len f)) mod 2 ^ 64)
        with (batch_len r) by (rewrite Z.mod_small; lia).
      rewrite IH; try assumption; [|lia|simpl in Hfuel; lia].
      reflexivity.
Qed.

(* ================================================================== *)
(** * The claims of the specification *)

(** ** The credential lookup *)

Lemma find_label_found label f q pre l post :
  label = Gid_label \/ label = Uid_label ->
  status_lines f = pre ++ l :: post ->
  Forall (fun x => firstn 4 x <> label) pre ->
  firstn 4 l = label ->
  find_label label f q = (parse_ids l q, concat post).
Proof.
  intros Hlab Hlines Hpre Hl. unfold find_label.
  apply scan_status_found with (pre := pre).
  - lia.
  - exact Hlines.
  - eapply Forall_impl; [|exact Hpre].
    intros x Hx. apply has_label_false; assumption.
  - destruct Hlab as [-> | ->];
      [apply has_label_Gid | apply has_label_Uid]; exact Hl.
Qed.

Lemma find_label_absent label f q :
  label = Gid_label \/ label = Uid_label ->
  Forall (fun x => firstn 4 x <> label) (status_lines f) ->
  find_label label f q = (q, []).
Proof.
  intros Hlab Hall. unfold find_label.
  apply scan_status_absent; [lia|].
  eapply Forall_impl; [|exact Hall].
  intros x Hx. apply has_label_false; assumption.
Qed.

(** C1.  A UID_CHANGE event with pid 100, tgid 100, ruid 1000 and euid 2000,
    for a process whose status record has "Gid: 30 40 30 30" as its Gid
    line (the first line that the loop reads with that label), makes
    [cgre_process_event], alone and under [cgre_handle_msg], issue exactly
    one request to libcgroup: uid 2000, gid 40, pid 100, with the cache
    flag.  The buffer for the line is assumed to be allocated. *)
Theorem C1_uid_change_request w ev f pre l post :
  what ev = PROC_EVENT_UID ->
  process_pid ev = 100 -> process_tgid ev = 100 ->
  id_r ev = 1000 -> id_e ev = 2000 ->
  proc_status w 100 = Some f ->
  calloc_errno w = None ->
  status_lines f = pre ++ l :: post ->
  l = Sample.txt "Gid: 30 40 30 30"
  \/ l = Sample.txt "Gid: 30 40 30 30" ++ [LF] ->
  Forall (fun x => firstn 4 x <> Gid_label) pre ->
  requests (snd (cgre_process_event w ev PROC_EVENT_UID))
  = [Sample.request_of (Some 2000) (Some 40) 100]
  /\ requests (snd (cgre_handle_msg w ev))
     = [Sample.request_of (Some 2000) (Some 40) 100].
Proof.
  intros Hw Hpid Htgid Hr He Hs Hc Hlines Hl Hpre.
  assert (Hrq : uid_request ev f = Sample.request_of (Some 2000) (Some 40) 100).
  { unfold uid_request, Sample.request_of. rewrite Hpid, He. f_equal.
    rewrite (find_label_found Gid_label f uninit pre l post);
      [|left; reflexivity|exact Hlines|exact Hpre|].
    - destruct Hl as [-> | ->]; vm_compute; reflexivity.
    - destruct Hl as [-> | ->]; reflexivity. }
  rewrite <- Hpid in Hs.
  rewrite (handle_msg_uid w ev Hw), (process_event_uid w ev f Hs Hc), Hrq.
  split; reflexivity.
Qed.

Lemma C1_uid_change_request_witness :
  status_lines Sample.status_full
  = [Sample.txt "Name: bash" ++ [LF];
     Sample.txt "Uid: 500 600 500 500" ++ [LF]]
    ++ (Sample.txt "Gid: 30 40 30 30" ++ [LF])
    :: [Sample.txt "Groups: 30" ++ [LF]]
  /\ requests (snd (cgre_process_event (Sample.world_of Sample.status_full 0)
                      Sample.uid_event PROC_EVENT_UID))
     = [Sample.request_of (Some 2000) (Some 40) 100]
  /\ requests (snd (cgre_handle_msg (Sample.world_of Sample.status_full 0)
                      Sample.uid_event))
     = [Sample.request_of (Some 2000) (Some 40) 100].
Proof.
  assert (Hlines : status_lines Sample.status_full
    = [Sample.txt "Name: bash" ++ [LF];
       Sample.txt "Uid: 500 600 500 500" ++ [LF]]
      ++ (Sample.txt "Gid: 30 40 30 30" ++ [LF])
      :: [Sample.txt "Groups: 30" ++ [LF]])
    by (vm_compute; reflexivity).
  split; [exact Hlines|].
  apply (C1_uid_change_request (Sample.world_of Sample.status_full 0)
           Sample.uid_event Sample.status_full _ _ _
           eq_refl eq_refl eq_refl eq_refl eq_refl eq_refl eq_refl Hlines).
  - right; reflexivity.
  - repeat constructor; discriminate.
Defined.

(** A status record without a line that carries the label leaves the
    variables of the [sscanf] as they were: the request of a UID event then
    has a gid that nothing assigned. *)
Lemma uid_request_without_gid_line ev f :
  Forall (fun x => firstn 4 x <> Gid_label) (status_lines f) ->
  uid_request ev f
  = Sample.request_of (Some (id_e ev)) None (process_pid ev).
Proof.
  intros H. unfold uid_request.
  rewrite find_label_absent; [reflexivity | left; reflexivity | exact H].
Qed.

(** C2 (the code departs from the claim).  The status record of process 100
    opens and has no line that begins with "Gid:".  The UID_CHANGE event is
    not dropped: [cgre_process_event] goes on to its second [switch] and
    calls libcgroup once, with the uid of the event and the [egid] that no
    [sscanf] assigned. *)
Theorem C2_missing_label_still_dispatches :
  proc_status (Sample.world_of Sample.status_no_gid 0) 100
  = Some Sample.status_no_gid
  /\ Forall (fun x => firstn 4 x <> Gid_label)
            (status_lines Sample.status_no_gid)
  /\ cgre_process_event (Sample.world_of Sample.status_no_gid 0)
                        Sample.uid_event PROC_EVENT_UID
     = (0, [Fopen 100;
            Flog (LogAttempt 100 (Some 2000) None);
            Reassign (Sample.request_of (Some 2000) None 100);
            Flog LogOk])
  /\ requests (snd (cgre_handle_msg (Sample.world_of Sample.status_no_gid 0)
                                    Sample.uid_event))
     = [Sample.request_of (Some 2000) None 100].
Proof.
  split; [reflexivity|].
  split; [vm_compute; repeat constructor; discriminate|].
  split; vm_compute; reflexivity.
Qed.

(** C10.  When the lines that the loop reads are [pre], then [l], then
    [post], no line of [pre] begins with the label and [l] does, the loop
    for that label parses [l] alone and stops there: its result is the
    [sscanf] on [l], and all of [post], whatever it holds (lines with the
    same label too), is left unread in the stream. *)
Theorem C10_first_label_line_only label f q pre l post :
  label = Gid_label \/ label = Uid_label ->
  status_lines f = pre ++ l :: post ->
  Forall (fun x => firstn 4 x <> label) pre ->
  firstn 4 l = label ->
  find_label label f q = (parse_ids l q, concat post).
Proof.
  intros Hlab Hlines Hpre Hl.
  assert (Hfirst : has_label label l = true).
  { destruct Hlab as [-> | ->];
      [apply has_label_Gid | apply has_label_Uid]; exact Hl. }
  assert (Hbefore : Forall (fun x => has_label label x = false) pre).
  { eapply Forall_impl; [|exact Hpre].
    intros x Hx. apply has_label_false; assumption. }
  unfold find_label, status_lines in *.
  exact (scan_status_found label (List.length f) f q pre l post
           (Nat.le_refl _) Hlines Hbefore Hfirst).
Qed.

Lemma C10_first_label_line_only_witness :
  status_lines Sample.status_two_gid
  = [Sample.txt "Name: bash" ++ [LF]]
    ++ (Sample.txt "Gid: 30 40 30 30" ++ [LF])
    :: [Sample.txt "Gid: 1 2 3 4" ++ [LF]]
  /\ find_label Gid_label Sample.status_two_gid uninit
     = (Quad (Some 30) (Some 40) (Some 30) (Some 30),
        Sample.txt "Gid: 1 2 3 4" ++ [LF]).
Proof.
  assert (Hlines : status_lines Sample.status_two_gid
    = [Sample.txt "Name: bash" ++ [LF]]
      ++ (Sample.txt "Gid: 30 40 30 30" ++ [LF])
      :: [Sample.txt "Gid: 1 2 3 4" ++ [LF]])
    by (vm_compute; reflexivity).
  split; [exact Hlines|].
  rewrite (C10_first_label_line_only Gid_label Sample.status_two_gid uninit
             _ _ _ (or_introl eq_refl) Hlines).
  - vm_compute; reflexivity.
  - repeat constructor; discriminate.
  - reflexivity.
Defined.

(** ** The event filter *)

(** C7.  A message whose event kind is neither UID_CHANGE nor GID_CHANGE is
    handled without any action: [cgre_handle_msg] returns 0, does not open
    a status record and issues no request. *)
Theorem C7_other_kinds_ignored w ev :
  what ev <> PROC_EVENT_UID -> what ev <> PROC_EVENT_GID ->
  cgre_handle_msg w ev = (0, [])
  /\ requests (snd (cgre_handle_msg w ev)) = []
  /\ lookups (snd (cgre_handle_msg w ev)) = [].
Proof.
  intros H1 H2. rewrite (handle_msg_other w ev H1 H2). auto.
Qed.

Lemma C7_other_kinds_ignored_witness :
  what Sample.fork_event <> PROC_EVENT_UID
  /\ what Sample.fork_event <> PROC_EVENT_GID
  /\ cgre_handle_msg (Sample.world_of Sample.status_full 0) Sample.fork_event
     = (0, []).
Proof.
  assert (H1 : what Sample.fork_event <> PROC_EVENT_UID) by discriminate.
  assert (H2 : what Sample.fork_event <> PROC_EVENT_GID) by discriminate.
  split; [exact H1|]. split; [exact H2|].
  exact (proj1 (C7_other_kinds_ignored
                  (Sample.world_of Sample.status_full 0)
                  Sample.fork_event H1 H2)).
Defined.

(** ** Return codes *)

Lemma process_event_other w ev type f :
  type <> PROC_EVENT_UID -> type <> PROC_EVENT_GID ->
  proc_status w (process_pid ev) = Some f ->
  calloc_errno w = None ->
  cgre_process_event w ev type =
  (0, [Fopen (process_pid ev); Flog LogNotUidGid; Flog LogOk]).
Proof.
  intros H1 H2 Hs Hc. unfold cgre_process_event. rewrite Hs, Hc.
  destruct (Z.eqb_spec type PROC_EVENT_UID); [contradiction|].
  destruct (Z.eqb_spec type PROC_EVENT_GID); [contradiction|].
  reflexivity.
Qed.

(** A request in the trace of [cgre_process_event] is the one whose code
    the function returns. *)
Lemma process_event_reassign w ev type rq :
  In (Reassign rq) (snd (cgre_process_event w ev type)) ->
  fst (cgre_process_event w ev type) = policy w rq.
Proof.
  destruct (proc_status w (process_pid ev)) as [f|] eqn:Hs.
  2:{ rewrite (process_event_no_record w ev type Hs). simpl.
      intros [H|[H|[]]]; discriminate. }
  destruct (calloc_errno w) as [e|] eqn:Hc.
  { rewrite (process_event_no_memory w ev type f e Hs Hc). simpl.
    intros [H|[H|[]]]; discriminate. }
  destruct (Z.eq_dec type PROC_EVENT_UID) as [->|Hu].
  { rewrite (process_event_uid w ev f Hs Hc). simpl.
    intros [H|[H|[H|[H|[]]]]]; try discriminate. congruence. }
  destruct (Z.eq_dec type PROC_EVENT_GID) as [->|Hg].
  { rewrite (process_event_gid w ev f Hs Hc). simpl.
    intros [H|[H|[H|[H|[]]]]]; try discriminate. congruence. }
  rewrite (process_event_other w ev type f Hu Hg Hs Hc). simpl.
  intros [H|[H|[H|[]]]]; discriminate.
Qed.

(** C9.  When the status record of the process of an event cannot be
    opened, [cgre_process_event] returns 0.  That is also what it returns
    after a dispatch that succeeded (a request issued, answered with 0 by
    libcgroup), so the return code does not tell the two apart. *)
Theorem C9_missing_record_returns_zero w ev type w' ev' type' rq :
  proc_status w (process_pid ev) = None ->
  In (Reassign rq) (snd (cgre_process_event w' ev' type')) ->
  policy w' rq = 0 ->
  fst (cgre_process_event w ev type) = 0
  /\ requests (snd (cgre_process_event w ev type)) = []
  /\ fst (cgre_process_event w ev type) = fst (cgre_process_event w' ev' type').
Proof.
  intros Hs Hin Hp.
  rewrite (process_event_reassign w' ev' type' rq Hin), Hp.
  rewrite (process_event_no_record w ev type Hs). auto.
Qed.

Lemma C9_missing_record_returns_zero_witness :
  proc_status (Sample.world_of Sample.status_full 0)
              (process_pid Sample.fork_event) = None
  /\ policy (Sample.world_of Sample.status_full 0)
            (Sample.request_of (Some 2000) (Some 40) 100) = 0
  /\ fst (cgre_process_event (Sample.world_of Sample.status_full 0)
            Sample.fork_event PROC_EVENT_UID) = 0
  /\ fst (cgre_process_event (Sample.world_of Sample.status_full 0)
            Sample.fork_event PROC_EVENT_UID)
     = fst (cgre_process_event (Sample.world_of Sample.status_full 0)
              Sample.uid_event PROC_EVENT_UID).
Proof.
  split; [reflexivity|]. split; [reflexivity|].
  assert (Hin : In (Reassign (Sample.request_of (Some 2000) (Some 40) 100))
                   (snd (cgre_process_event
                           (Sample.world_of Sample.status_full 0)
                           Sample.uid_event PROC_EVENT_UID))).
  { vm_compute. right; right; left; reflexivity. }
  pose proof (C9_missing_record_returns_zero
                (Sample.world_of Sample.status_full 0) Sample.fork_event
                PROC_EVENT_UID
                (Sample.world_of Sample.status_full 0) Sample.uid_event
                PROC_EVENT_UID _ eq_refl Hin eq_refl) as (H1 & _ & H3).
  split; [exact H1 | exact H3].
Defined.

(** ** The receive loop *)

(** What the loop does after a turn that ended in [break] or in
    [NLMSG_NEXT]. *)
Lemma frames_loop_proceeds k w buf off len :
  NLMSG_OK (hdr (buf off)) len = true ->
  fst (loop_body w buf off len)
  = (if frame_type (buf off) =? NLMSG_DONE then Break
     else next_turn (buf off) off len) ->
  frames_loop (S k) w buf off len
  = after (snd (loop_body w buf off len))
      (if frame_type (buf off) =? NLMSG_DONE then Some (NextReceive, [])
       else frames_loop k w buf (off + frame_space (buf off))
              (size_sub len (frame_space (buf off)))).
Proof.
  intros Hok Hfl. rewrite frames_loop_step by exact Hok. rewrite Hfl.
  destruct (frame_type (buf off) =? NLMSG_DONE).
  - simpl. rewrite app_nil_r. reflexivity.
  - reflexivity.
Qed.

(** C8.  A UID or GID event whose status record cannot be opened: the
    lookup is logged as failed, [cgre_process_event] returns 0 without a
    request, and the turn of the frame loop ends as the turn of any message
    does that was handled without fault: with [NLMSG_NEXT] to the next
    message, or with the [break] to the next receive behind a message of
    type [NLMSG_DONE]; never with the jump out of the loop. *)
Theorem C8_missing_record_skipped k w buf off len :
  NLMSG_OK (hdr (buf off)) len = true ->
  frame_type (buf off) <> NLMSG_NOOP ->
  frame_type (buf off) <> NLMSG_ERROR ->
  frame_type (buf off) <> NLMSG_OVERRUN ->
  what (event (buf off)) = PROC_EVENT_UID
  \/ what (event (buf off)) = PROC_EVENT_GID ->
  proc_status w (process_pid (event (buf off))) = None ->
  cgre_process_event w (event (buf off)) (what (event (buf off)))
  = (0, [Fopen (process_pid (event (buf off)));
         Flog (LogFailedOpen (process_pid (event (buf off))))])
  /\ requests (snd (loop_body w buf off len)) = []
  /\ fst (loop_body w buf off len)
     = (if frame_type (buf off) =? NLMSG_DONE then Break
        else next_turn (buf off) off len)
  /\ frames_loop (S k) w buf off len
     = after (snd (loop_body w buf off len))
         (if frame_type (buf off) =? NLMSG_DONE then Some (NextReceive, [])
          else frames_loop k w buf (off + frame_space (buf off))
                 (size_sub len (frame_space (buf off)))).
Proof.
  intros Hok H1 H2 H3 Hk Hs.
  split; [apply process_event_no_record; exact Hs|].
  assert (Hfl : fst (loop_body w buf off len)
                = (if frame_type (buf off) =? NLMSG_DONE then Break
                   else next_turn (buf off) off len)
                /\ requests (snd (loop_body w buf off len)) = []).
  { rewrite (loop_body_handle w buf off len H1 H2 H3). cbn [fst snd].
    destruct Hk as [Hk|Hk];
      [rewrite (handle_msg_uid _ _ Hk) | rewrite (handle_msg_gid _ _ Hk)];
      rewrite (process_event_no_record _ _ _ Hs); split; reflexivity. }
  destruct Hfl as [Hfl Hrq].
  split; [exact Hrq|]. split; [exact Hfl|].
  apply frames_loop_proceeds; assumption.
Qed.

Lemma C8_missing_record_skipped_witness :
  proc_status (Sample.world_of Sample.status_full 0)
              (process_pid Sample.orphan_event) = None
  /\ requests
       (snd (loop_body (Sample.world_of Sample.status_full 0)
               (place [Sample.msg 0 76 Sample.orphan_event;
                       Sample.msg 0 76 Sample.uid_event] 0) 0 152)) = []
  /\ fst (loop_body (Sample.world_of Sample.status_full 0)
            (place [Sample.msg 0 76 Sample.orphan_event;
                    Sample.msg 0 76 Sample.uid_event] 0) 0 152)
     = Continue 76 76.
Proof.
  split; [reflexivity|].
  pose proof (C8_missing_record_skipped 2
                (Sample.world_of Sample.status_full 0)
                (place [Sample.msg 0 76 Sample.orphan_event;
                        Sample.msg 0 76 Sample.uid_event] 0) 0 152
                eq_refl) as H.
  destruct H as (_ & Hrq & Hfl & _);
    try discriminate; [left; reflexivity | reflexivity |].
  split; [exact Hrq | exact Hfl].
Defined.

(** A code that is not negative never ends the loop: with a libcgroup and
    an [errno] that are never negative, the work on a receive always ends
    in the wait for the next one, and the daemon does not return. *)
Lemma handle_msg_nonneg w ev :
  (forall rq, 0 <= policy w rq) ->
  (forall e, calloc_errno w = Some e -> 0 <= e) ->
  0 <= fst (cgre_handle_msg w ev).
Proof.
  intros Hp He.
  destruct (handle_msg_handling w ev) as [ | |head f e Hs Hc| ];
    cbn [fst]; auto; lia.
Qed.

Lemma frames_loop_never_exits w buf :
  (forall rq, 0 <= policy w rq) ->
  (forall e, calloc_errno w = Some e -> 0 <= e) ->
  forall fuel off len t,
    frames_loop fuel w buf off len <> Some (CloseAndExit, t).
Proof.
  intros Hp He fuel.
  induction fuel as [|k IH]; intros off len t; [discriminate|].
  destruct (NLMSG_OK (hdr (buf off)) len) eqn:Hok.
  2:{ cbn [frames_loop]. rewrite Hok. discriminate. }
  rewrite frames_loop_step by exact Hok.
  destruct (Z.eq_dec (frame_type (buf off)) NLMSG_NOOP) as [E|E1].
  { rewrite (loop_body_noop _ _ _ _ E). cbn [fst snd].
    rewrite after_nil. apply IH. }
  destruct (Z.eq_dec (frame_type (buf off)) NLMSG_ERROR) as [E|E2].
  { rewrite loop_body_error by (left; exact E). discriminate. }
  destruct (Z.eq_dec (frame_type (buf off)) NLMSG_OVERRUN) as [E|E3].
  { rewrite loop_body_error by (right; exact E). discriminate. }
  rewrite (loop_body_handle w buf off len E1 E2 E3). cbn [fst snd].
  pose proof (handle_msg_nonneg w (event (buf off)) Hp He) as Hn.
  destruct (Z.ltb_spec (fst (cgre_handle_msg w (event (buf off)))) 0);
    [lia|].
  destruct (frame_type (buf off) =? NLMSG_DONE); [discriminate|].
  unfold next_turn.
  destruct (frames_loop k w buf _ _) as [[e t']|] eqn:Hrec;
    [|discriminate].
  cbn [after option_map]. intros Heq.
  assert (e = CloseAndExit) by congruence. subst e.
  exact (IH _ _ _ Hrec).
Qed.

Lemma receive_loop_never_returns w :
  (forall rq, 0 <= policy w rq) ->
  (forall e, calloc_errno w = Some e -> 0 <= e) ->
  forall fuel rs st t,
    receive_loop fuel w rs = Some (st, t) -> st = Listening.
Proof.
  intros Hp He fuel rs.
  induction rs as [|r rs IH]; intros st t H.
  - cbn [receive_loop] in H. unfold ret in H. congruence.
  - cbn [receive_loop] in H.
    destruct (receive_once fuel w r) as [[e t1]|] eqn:Hr; [|discriminate].
    destruct e.
    + destruct (receive_loop fuel w rs) as [[st' t']|]; [|discriminate].
      cbn [after option_map] in H.
      assert (st' = st) by congruence. subst st'.
      exact (IH _ _ eq_refl).
    + exfalso. unfold receive_once in Hr.
      destruct (_ =? ENOBUFS); [discriminate|].
      destruct (_ <? 1); [discriminate|].
      exact (frames_loop_never_exits w _ Hp He _ _ _ _ Hr).
Qed.

(** C4 (amended).  A request that libcgroup answers with a code other than
    0 is reported in the log with that code.  When the code is positive the
    loop goes on: to the next message, or to the next receive behind a
    message of type [NLMSG_DONE].  When the code is negative the loop is
    left through [close_and_exit]. *)
Theorem C4_policy_code_and_loop k w buf off len rq :
  NLMSG_OK (hdr (buf off)) len = true ->
  In (Reassign rq) (snd (loop_body w buf off len)) ->
  policy w rq <> 0 ->
  In (Flog (LogFailed (policy w rq))) (snd (loop_body w buf off len))
  /\ (0 < policy w rq ->
      fst (loop_body w buf off len)
      = (if frame_type (buf off) =? NLMSG_DONE then Break
         else next_turn (buf off) off len)
      /\ frames_loop (S k) w buf off len
         = after (snd (loop_body w buf off len))
             (if frame_type (buf off) =? NLMSG_DONE
              then Some (NextReceive, [])
              else frames_loop k w buf (off + frame_space (buf off))
                     (size_sub len (frame_space (buf off)))))
  /\ (policy w rq < 0 ->
      fst (loop_body w buf off len) = GotoExit
      /\ frames_loop (S k) w buf off len
         = Some (CloseAndExit, snd (loop_body w buf off len))).
Proof.
  intros Hok Hin Hc.
  destruct (loop_body_handled_type _ _ _ _ _ Hin) as (H1 & H2 & H3).
  assert (Hbody := loop_body_handle w buf off len H1 H2 H3).
  assert (Hin' : In (Reassign rq) (snd (cgre_handle_msg w (event (buf off))))).
  { rewrite Hbody in Hin. destruct Hin as [Hin|Hin];
      [discriminate | exact Hin]. }
  destruct (handle_msg_reassign w _ rq Hin') as [Hret Hlog].
  unfold outcome_line in Hlog.
  destruct (Z.eqb_spec (policy w rq) 0) as [E|_]; [contradiction|].
  split; [rewrite Hbody; right; exact Hlog|].
  split; intros Hsign.
  - assert (Hfl : fst (loop_body w buf off len)
                  = (if frame_type (buf off) =? NLMSG_DONE then Break
                     else next_turn (buf off) off len)).
    { rewrite Hbody. cbn [fst]. rewrite Hret.
      destruct (Z.ltb_spec (policy w rq) 0); [lia | reflexivity]. }
    split; [exact Hfl | apply frames_loop_proceeds; assumption].
  - assert (Hfl : fst (loop_body w buf off len) = GotoExit).
    { rewrite Hbody. cbn [fst]. rewrite Hret.
      destruct (Z.ltb_spec (policy w rq) 0); [reflexivity | lia]. }
    split; [exact Hfl|].
    rewrite frames_loop_step by exact Hok. rewrite Hfl. reflexivity.
Qed.

Lemma C4_policy_code_and_loop_witness :
  policy (Sample.world_of Sample.status_full 50001)
         (Sample.request_of (Some 2000) (Some 40) 100) <> 0
  /\ In (Flog (LogFailed 50001))
        (snd (loop_body (Sample.world_of Sample.status_full 50001)
                (place [Sample.msg 0 76 Sample.uid_event;
                        Sample.msg 0 76 Sample.gid_event] 0) 0 152))
  /\ fst (loop_body (Sample.world_of Sample.status_full 50001)
            (place [Sample.msg 0 76 Sample.uid_event;
                    Sample.msg 0 76 Sample.gid_event] 0) 0 152)
     = Continue 76 76.
Proof.
  assert (Hc : policy (Sample.world_of Sample.status_full 50001)
                 (Sample.request_of (Some 2000) (Some 40) 100) <> 0)
    by discriminate.
  split; [exact Hc|].
  assert (Hin : In (Reassign (Sample.request_of (Some 2000) (Some 40) 100))
                   (snd (loop_body (Sample.world_of Sample.status_full 50001)
                           (place [Sample.msg 0 76 Sample.uid_event;
                                   Sample.msg 0 76 Sample.gid_event] 0)
                           0 152))).
  { vm_compute. do 5 right. left. reflexivity. }
  destruct (C4_policy_code_and_loop 2
              (Sample.world_of Sample.status_full 50001)
              (place [Sample.msg 0 76 Sample.uid_event;
                      Sample.msg 0 76 Sample.gid_event] 0) 0 152
              _ eq_refl Hin Hc) as (Hlog & Hpos & _).
  split; [exact Hlog|].
  exact (proj1 (Hpos eq_refl)).
Defined.

(** C4, as the specification states it, fails for a negative code: the code
    -1 for the first message of the first datagram ends the loop, and
    neither the second message nor the second datagram is processed. *)
Lemma C4_counterexample :
  policy (Sample.world_of Sample.status_full (-1))
         (Sample.request_of (Some 2000) (Some 40) 100) = -1
  /\ receive_loop 3 (Sample.world_of Sample.status_full (-1))
       [Sample.datagram [Sample.msg 0 76 Sample.uid_event;
                         Sample.msg 0 76 Sample.gid_event];
        Sample.datagram [Sample.msg NLMSG_DONE 76 Sample.gid_event]]
     = Some (Returned (-1),
             [HandleMsg 0; Flog LogUidEvent; Flog (LogIds 100 100 1000 2000);
              Fopen 100; Flog (LogAttempt 100 (Some 2000) (Some 40));
              Reassign (Sample.request_of (Some 2000) (Some 40) 100);
              Flog (LogFailed (-1))]).
Proof. split; vm_compute; reflexivity. Qed.

(** C5 (the code departs from the claim).  A datagram whose first message
    has the type [NLMSG_NOOP]: the turn of the loop on that message ends in
    [continue] with [nlh] and [recv_len] unchanged, so the loop stays on the
    message and, whatever the number of turns, neither reaches the message
    behind it nor ends. *)
Theorem C5_noop_message_spins :
  Forall frame_ok [Sample.msg NLMSG_NOOP 16 zero_event;
                   Sample.msg NLMSG_DONE 76 Sample.uid_event]
  /\ loop_body (Sample.world_of Sample.status_full 0)
       (place [Sample.msg NLMSG_NOOP 16 zero_event;
               Sample.msg NLMSG_DONE 76 Sample.uid_event] 0) 0 92
     = (Continue 0 92, [])
  /\ forall fuel,
       receive_once fuel (Sample.world_of Sample.status_full 0)
         (Sample.datagram [Sample.msg NLMSG_NOOP 16 zero_event;
                           Sample.msg NLMSG_DONE 76 Sample.uid_event])
       = None.
Proof.
  split; [repeat constructor; vm_compute; discriminate|].
  split; [reflexivity|].
  intros fuel. unfold receive_once, Sample.datagram. cbn [recv_ret recv_buf].
  assert (E : to_size_t (batch_len [Sample.msg NLMSG_NOOP 16 zero_event;
                                    Sample.msg NLMSG_DONE 76 Sample.uid_event])
              = 92) by (vm_compute; reflexivity).
  rewrite E.
  change (92 =? ENOBUFS) with false. change (92 <? 1) with false. cbv iota.
  apply frames_loop_noop_spins; reflexivity.
Qed.

(** The length field of cleared memory is too small for a message. *)
Lemma NLMSG_OK_zero len : NLMSG_OK (hdr zero_frame) len = false.
Proof.
  unfold NLMSG_OK. cbn [zero_frame hdr nlmsg_len].
  change (NLMSG_HDRLEN <=? 0) with false.
  rewrite andb_false_r. reflexivity.
Qed.

(** C6.  A [recvfrom] that returns 0, or a negative value and leaves the
    cleared buffer as it was, yields no message: nothing is handled or
    logged, and the daemon goes on with the next receive.  For 0 the test
    [recv_len < 1] does it; a negative value is a large [size_t], and there
    [NLMSG_OK] fails on the zero length field at the start of the buffer. *)
Theorem C6_empty_receive_retried fuel w r rs :
  (0 < fuel)%nat ->
  - 2 ^ 63 <= recv_ret r <= 0 ->
  (recv_ret r < 0 -> recv_buf r 0 = zero_frame) ->
  receive_once fuel w r = Some (NextReceive, [])
  /\ receive_loop fuel w (r :: rs) = receive_loop fuel w rs.
Proof.
  intros Hfuel Hret Hbuf.
  assert (Honce : receive_once fuel w r = Some (NextReceive, [])).
  { unfold receive_once, to_size_t.
    destruct (Z.eq_dec (recv_ret r) 0) as [E|E].
    - rewrite E. reflexivity.
    - assert (Hneg : recv_ret r < 0) by lia.
      rewrite <- (Z_mod_plus_full (recv_ret r) 1 (2 ^ 64)).
      rewrite Z.mod_small by lia.
      unfold ENOBUFS.
      destruct (Z.eqb_spec (recv_ret r + 1 * 2 ^ 64) 105); [lia|].
      destruct (Z.ltb_spec (recv_ret r + 1 * 2 ^ 64) 1); [lia|].
      destruct fuel as [|k]; [lia|].
      cbn [frames_loop]. rewrite (Hbuf Hneg), NLMSG_OK_zero. reflexivity. }
  split; [exact Honce|].
  cbn [receive_loop]. rewrite Honce. apply after_nil.
Qed.

Lemma C6_empty_receive_retried_witness :
  receive_once 1 (Sample.world_of Sample.status_full 0) Sample.failed_receive
  = Some (NextReceive, [])
  /\ receive_loop 1 (Sample.world_of Sample.status_full 0)
       [Sample.failed_receive]
     = receive_loop 1 (Sample.world_of Sample.status_full 0) [].
Proof.
  apply (C6_empty_receive_retried 1 (Sample.world_of Sample.status_full 0)
           Sample.failed_receive []).
  - lia.
  - vm_compute. split; discriminate.
  - reflexivity.
Defined.

(** C3, as the specification states it, fails: a datagram of two well-formed
    messages that both have the type [NLMSG_DONE] (the type under which the
    kernel sends process events).  The loop handles the first and leaves
    the batch at the [break] behind it; the second is never handled. *)
Lemma C3_counterexample :
  Forall frame_ok [Sample.msg NLMSG_DONE 76 Sample.uid_event;
                   Sample.msg NLMSG_DONE 76 Sample.gid_event]
  /\ holds (place [Sample.msg NLMSG_DONE 76 Sample.uid_event;
                   Sample.msg NLMSG_DONE 76 Sample.gid_event] 0) 0
       [Sample.msg NLMSG_DONE 76 Sample.uid_event;
        Sample.msg NLMSG_DONE 76 Sample.gid_event]
  /\ offsets 0 [Sample.msg NLMSG_DONE 76 Sample.uid_event;
                Sample.msg NLMSG_DONE 76 Sample.gid_event] = [0; 76]
  /\ option_map (fun r => (fst r, handled (snd r)))
       (receive_once 3 (Sample.world_of Sample.status_full 0)
          (Sample.datagram [Sample.msg NLMSG_DONE 76 Sample.uid_event;
                            Sample.msg NLMSG_DONE 76 Sample.gid_event]))
     = Some (NextReceive, [0]).
Proof.
  split; [repeat constructor; vm_compute; discriminate|].
  split; [repeat split|].
  split; vm_compute; reflexivity.
Qed.

(** C3 (amended).  A receive whose buffer holds N well-formed messages back
    to back, none of type [NLMSG_NOOP], none handled with a negative code,
    and whose length is not 105: the loop handles, in buffer order, the
    messages up to and including the first of type [NLMSG_DONE], or up to
    the first of type [NLMSG_ERROR] or [NLMSG_OVERRUN] without it; all N
    when no message has one of these types.  From one message to the next
    it advances by the declared length rounded up to a multiple of four,
    which is the declared length where that is such a multiple. *)
Theorem C3_frames_in_order w buf fs fuel :
  Forall frame_ok fs ->
  holds buf 0 fs ->
  batch_len fs < 2 ^ 63 ->
  batch_len fs <> ENOBUFS ->
  Forall (fun f => frame_type f <> NLMSG_NOOP) fs ->
  Forall (fun f => 0 <= fst (cgre_handle_msg w (event f))) fs ->
  (List.length fs < fuel)%nat ->
  receive_once fuel w {| recv_ret := batch_len fs; recv_buf := buf |}
  = Some (NextReceive, batch_trace w 0 (reached fs))
  /\ handled (batch_trace w 0 (reached fs)) = offsets 0 (reached fs)
  /\ (Forall (fun f => frame_type f <> NLMSG_ERROR
                       /\ frame_type f <> NLMSG_OVERRUN
                       /\ frame_type f <> NLMSG_DONE) fs ->
      reached fs = fs)
  /\ Forall (fun f => frame_len f <= frame_space f < frame_len f + 4
                      /\ (frame_len f mod 4 = 0 -> frame_space f = frame_len f))
            fs.
Proof.
  intros Hok Hh Hlen Hno Hnoop Hret Hfuel.
  pose proof (batch_len_nonneg fs Hok) as H0.
  split; [|split; [apply handled_batch_trace|split; [apply reached_all|]]].
  - unfold receive_once, to_size_t. cbn [recv_ret recv_buf].
    rewrite Z.mod_small by lia.
    destruct (Z.eqb_spec (batch_len fs) ENOBUFS); [contradiction|].
    destruct (Z.ltb_spec (batch_len fs) 1).
    + destruct fs as [|f r]; [reflexivity|].
      exfalso. inversion Hok as [|? ? Hf Hr]; subst.
      pose proof (batch_len_nonneg r Hr).
      pose proof (NLMSG_ALIGN_bounds (frame_len f)) as B.
      cbn [batch_len] in *.
      unfold frame_ok, NLMSG_HDRLEN, frame_space in *. lia.
    + apply frames_loop_batch; try assumption. lia.
  - eapply Forall_impl; [|exact Hok]. intros f Hf.
    unfold frame_ok, NLMSG_HDRLEN, frame_space in *.
    split; [apply NLMSG_ALIGN_bounds; lia|].
    intros Hm. apply NLMSG_ALIGN_aligned; [lia | exact Hm].
Qed.

Lemma C3_frames_in_order_witness :
  Forall frame_ok [Sample.msg 0 76 Sample.uid_event;
                   Sample.msg 0 74 Sample.fork_event;
                   Sample.msg NLMSG_DONE 76 Sample.gid_event]
  /\ batch_len [Sample.msg 0 76 Sample.uid_event;
                Sample.msg 0 74 Sample.fork_event;
                Sample.msg NLMSG_DONE 76 Sample.gid_event] = 228
  /\ option_map (fun r => (fst r, handled (snd r), requests (snd r)))
       (receive_once 4 (Sample.world_of Sample.status_full 0)
          (Sample.datagram [Sample.msg 0 76 Sample.uid_event;
                            Sample.msg 0 74 Sample.fork_event;
                            Sample.msg NLMSG_DONE 76 Sample.gid_event]))
     = Some (NextReceive, [0; 76; 152],
             [Sample.request_of (Some 2000) (Some 40) 100;
              Sample.request_of (Some 600) (Some 20) 55]).
Proof.
  assert (Hok : Forall frame_ok [Sample.msg 0 76 Sample.uid_event;
                                 Sample.msg 0 74 Sample.fork_event;
                                 Sample.msg NLMSG_DONE 76 Sample.gid_event])
    by (repeat constructor; vm_compute; discriminate).
  split; [exact Hok|]. split; [reflexivity|].
  unfold Sample.datagram.
  destruct (C3_frames_in_order (Sample.world_of Sample.status_full 0)
              (place [Sample.msg 0 76 Sample.uid_event;
                      Sample.msg 0 74 Sample.fork_event;
                      Sample.msg NLMSG_DONE 76 Sample.gid_event] 0)
              [Sample.msg 0 76 Sample.uid_event;
               Sample.msg 0 74 Sample.fork_event;
               Sample.msg NLMSG_DONE 76 Sample.gid_event] 4 Hok)
    as (Hrun & _).
  - repeat split.
  - reflexivity.
  - discriminate.
  - repeat constructor; discriminate.
  - repeat constructor; vm_compute; discriminate.
  - simpl; lia.
  - rewrite Hrun. vm_compute. reflexivity.
Defined.

(* ================================================================== *)
(** * Further properties of the code *)

(** ** Reading the numbers of a status line *)

Lemma isspace_not_digit c : isspace c = true -> isdigit c = false.
Proof.
  unfold isspace, isdigit. intros H.
  apply orb_true_iff in H as [H|H].
  - apply Z.eqb_eq in H. rewrite H. reflexivity.
  - apply andb_true_iff in H as [H1 H2].
    apply Z.leb_le in H1, H2.
    destruct (Z.leb_spec 48 (code c)); [lia | reflexivity].
Qed.

Lemma skip_space_gap ws s :
  Forall (fun c => isspace c = true) ws ->
  skip_space (ws ++ s) = skip_space s.
Proof.
  induction 1 as [|c ws Hc _ IH]; [reflexivity|].
  simpl. rewrite Hc. exact IH.
Qed.

Lemma read_digits_uint d : forall acc rest,
  stops rest ->
  read_digits (Z.of_nat acc) (uint_text d ++ rest)
  = (Z.of_nat (Nat.of_uint_acc d acc), rest).
Proof.
  unfold uint_text.
  induction d as [|d IH|d IH|d IH|d IH|d IH|d IH|d IH|d IH|d IH|d IH];
    intros acc rest Hrest;
    cbn [NilEmpty.string_of_uint list_ascii_of_string app read_digits
         Nat.of_uint_acc].
  - destruct rest as [|c r]; [reflexivity|].
    cbn [read_digits]. simpl in Hrest. rewrite Hrest. reflexivity.
  - change (isdigit "0") with true. cbv iota.
    replace (10 * Z.of_nat acc + (code "0" - 48))
      with (Z.of_nat (Nat.tail_mul 10 acc))
      by (rewrite Nat.tail_mul_spec; change (code "0") with 48; lia).
    apply IH; exact Hrest.
  - change (isdigit "1") with true. cbv iota.
    replace (10 * Z.of_nat acc + (code "1" - 48))
      with (Z.of_nat (1 + Nat.tail_mul 10 acc))
      by (rewrite Nat.tail_mul_spec; change (code "1") with 49; lia).
    apply IH; exact Hrest.
  - change (isdigit "2") with true. cbv iota.
    replace (10 * Z.of_nat acc + (code "2" - 48))
      with (Z.of_nat (2 + Nat.tail_mul 10 acc))
      by (rewrite Nat.tail_mul_spec; change (code "2") with 50; lia).
    apply IH; exact Hrest.
  - change (isdigit "3") with true. cbv iota.
    replace (10 * Z.of_nat acc + (code "3" - 48))
      with (Z.of_nat (3 + Nat.tail_mul 10 acc))
      by (rewrite Nat.tail_mul_spec; change (code "3") with 51; lia).
    apply IH; exact Hrest.
  - change (isdigit "4") with true. cbv iota.
    replace (10 * Z.of_nat acc + (code "4" - 48))
      with (Z.of_nat (4 + Nat.tail_mul 10 acc))
      by (rewrite Nat.tail_mul_spec; change (code "4") with 52; lia).
    apply IH; exact Hrest.
  - change (isdigit "5") with true. cbv iota.
    replace (10 * Z.of_nat acc + (code "5" - 48))
      with (Z.of_nat (5 + Nat.tail_mul 10 acc))
      by (rewrite Nat.tail_mul_spec; change (code "5") with 53; lia).
    apply IH; exact Hrest.
  - change (isdigit "6") with true. cbv iota.
    replace (10 * Z.of_nat acc + (code "6" - 48))
      with (Z.of_nat (6 + Nat.tail_mul 10 acc))
      by (rewrite Nat.tail_mul_spec; change (code "6") with 54; lia).
    apply IH; exact Hrest.
  - change (isdigit "7") with true. cbv iota.
    replace (10 * Z.of_nat acc + (code "7" - 48))
      with (Z.of_nat (7 + Nat.tail_mul 10 acc))
      by (rewrite Nat.tail_mul_spec; change (code "7") with 55; lia).
    apply IH; exact Hrest.
  - change (isdigit "8") with true. cbv iota.
    replace (10 * Z.of_nat acc + (code "8" - 48))
      with (Z.of_nat (8 + Nat.tail_mul 10 acc))
      by (rewrite Nat.tail_mul_spec; change (code "8") with 56; lia).
    apply IH; exact Hrest.
  - change (isdigit "9") with true. cbv iota.
    replace (10 * Z.of_nat acc + (code "9" - 48))
      with (Z.of_nat (9 + Nat.tail_mul 10 acc))
      by (rewrite Nat.tail_mul_spec; change (code "9") with 57; lia).
    apply IH; exact Hrest.
Qed.

Lemma to_uint_head n :
  exists c tl, decimal n = c :: tl
               /\ isdigit c = true /\ isspace c = false
               /\ Ascii.eqb c "-" = false /\ Ascii.eqb c "+" = false.
Proof.
  unfold decimal.
  assert (E : Nat.to_uint n = Decimal.unorm (Nat.to_uint n)).
  { rewrite <- (DecimalNat.Unsigned.of_to n) at 1.
    apply DecimalNat.Unsigned.to_of. }
  rewrite E. unfold Decimal.unorm.
  destruct (Decimal.nzhead (Nat.to_uint n));
    cbn [uint_text NilEmpty.string_of_uint list_ascii_of_string];
    eexists; eexists; (split; [reflexivity|]); repeat split; reflexivity.
Qed.

(** One [%d] on a gap and the digits of [n] reads [n] and stops behind the
    digits. *)
Lemma scan_d_decimal ws n rest :
  Forall (fun c => isspace c = true) ws ->
  stops rest ->
  scan_d (ws ++ decimal n ++ rest) = Some (Z.of_nat n, rest).
Proof.
  intros Hws Hrest.
  pose proof (read_digits_uint (Nat.to_uint n) 0 rest Hrest) as Hd.
  change (Nat.of_uint_acc (Nat.to_uint n) 0) with (Nat.of_uint (Nat.to_uint n))
    in Hd.
  rewrite DecimalNat.Unsigned.of_to in Hd.
  fold (decimal n) in Hd. change (Z.of_nat 0) with 0 in Hd.
  destruct (to_uint_head n) as (c & tl & E & Hdig & Hsp & Hm & Hp).
  unfold scan_d. rewrite skip_space_gap by exact Hws.
  rewrite E in *. cbn [app skip_space]. rewrite Hsp, Hm, Hp, Hdig.
  cbn [app] in Hd. rewrite Hd. reflexivity.
Qed.

Lemma scan_d_decimal_here n rest :
  stops rest -> scan_d (decimal n ++ rest) = Some (Z.of_nat n, rest).
Proof. intros H. exact (scan_d_decimal [] n rest (Forall_nil _) H). Qed.



(** [buf + 5] for a line with a label of four characters and one more. *)
Lemma skipn_5_label_line label sep body :
  List.length label = 4%nat ->
  skipn 5 (store_line (zeros BUF_SIZE) (label ++ sep :: body))
  = body ++ NUL :: skipn (S (List.length (label ++ sep :: body)))
                     (zeros BUF_SIZE).
Proof.
  intros Hl. unfold store_line.
  destruct label as [|c1 [|c2 [|c3 [|c4 [|c5 r]]]]]; try discriminate.
  reflexivity.
Qed.

Lemma stops_NUL s : stops (NUL :: s).
Proof. reflexivity. Qed.


Lemma scan_d_blank tail s :
  Forall (fun c => isspace c = true) tail ->
  scan_d (tail ++ NUL :: s) = None.
Proof.
  intros H. unfold scan_d. rewrite skip_space_gap by exact H. reflexivity.
Qed.


Lemma firstn_4_id_line label sep ns gaps tail :
  label = Gid_label \/ label = Uid_label ->
  firstn 4 (id_line label sep ns gaps tail) = label.
Proof. intros [-> | ->]; reflexivity. Qed.






(** X3.  A "Gid:" line with fewer than two numbers.  When the first line
    with the label "Gid:" holds no number or one number and then only white
    space, the [sscanf] stops before it assigns [egid]; for a UID event the
    one request that is issued then carries the uid of the event and a gid
    that nothing assigned. *)
Theorem X3_short_gid_line_request w ev f pre post sep ns tail :
  what ev = PROC_EVENT_UID ->
  proc_status w (process_pid ev) = Some f ->
  calloc_errno w = None ->
  status_lines f = pre ++ id_line Gid_label sep ns [] tail :: post ->
  Forall (fun x => firstn 4 x <> Gid_label) pre ->
  (List.length ns <= 1)%nat ->
  Forall (fun c => isspace c = true) tail ->
  requests (snd (cgre_handle_msg w ev))
  = [Sample.request_of (Some (id_e ev)) None (process_pid ev)].
Proof.
  intros Hw Hs Hc Hlines Hpre Hns Htail.
  assert (Hrq : uid_request ev f
                = Sample.request_of (Some (id_e ev)) None (process_pid ev)).
  { unfold uid_request, Sample.request_of. f_equal.
    rewrite (find_label_found Gid_label f uninit pre _ post
               (or_introl eq_refl) Hlines Hpre)
      by (apply firstn_4_id_line; left; reflexivity).
    unfold parse_ids, id_line.
    rewrite skipn_5_label_line by reflexivity.
    rewrite <- app_assoc. unfold sscanf_d4.
    destruct ns as [|a [|b ns']]; [| |simpl in Hns; lia]; cbn [fields app].
    - rewrite scan_d_blank by exact Htail. reflexivity.
    - rewrite scan_d_decimal_here.
      + rewrite scan_d_blank by exact Htail. reflexivity.
      + destruct tail as [|c tail']; [reflexivity|].
        inversion Htail; subst. simpl. apply isspace_not_digit. assumption. }
  rewrite (handle_msg_uid w ev Hw), (process_event_uid w ev f Hs Hc), Hrq.
  reflexivity.
Qed.

Lemma X3_short_gid_line_request_witness :
  status_lines Cases.short_status
  = [Sample.txt "Name:" ++ [TAB] ++ Sample.txt "bash" ++ [LF]]
    ++ id_line Gid_label TAB [30%nat] [] [LF] :: []
  /\ requests (snd (cgre_handle_msg (Sample.world_of Cases.short_status 0)
                      Sample.uid_event))
     = [Sample.request_of (Some 2000) None 100].
Proof.
  assert (Hlines : status_lines Cases.short_status
    = [Sample.txt "Name:" ++ [TAB] ++ Sample.txt "bash" ++ [LF]]
      ++ id_line Gid_label TAB [30%nat] [] [LF] :: [])
    by (vm_compute; reflexivity).
  split; [exact Hlines|].
  apply (X3_short_gid_line_request (Sample.world_of Cases.short_status 0)
           Sample.uid_event Cases.short_status _ _ TAB [30%nat] [LF]
           eq_refl eq_refl eq_refl Hlines).
  - repeat constructor; discriminate.
  - simpl; lia.
  - repeat constructor.
Defined.

(** ** Invariants of the receive loop *)

(** A property of traces that holds of the empty trace, of the trace of
    every turn of the frame loop, and of the concatenation of two traces
    that have it, holds of every trace of the frame loop. *)
Lemma frames_loop_trace_inv (P : trace -> Prop) w buf :
  P [] ->
  (forall t1 t2, P t1 -> P t2 -> P (t1 ++ t2)) ->
  (forall off len, NLMSG_OK (hdr (buf off)) len = true ->
                   P (snd (loop_body w buf off len))) ->
  forall fuel off len e t,
    frames_loop fuel w buf off len = Some (e, t) -> P t.
Proof.
  intros Hnil Happ Hbody fuel.
  induction fuel as [|k IH]; intros off len e t H; [discriminate|].
  destruct (NLMSG_OK (hdr (buf off)) len) eqn:Hok.
  2:{ cbn [frames_loop] in H. rewrite Hok in H.
      assert (t = []) by congruence. subst t. exact Hnil. }
  rewrite frames_loop_step in H by exact Hok.
  specialize (Hbody off len Hok).
  destruct (fst (loop_body w buf off len)) as [off' len'| |].
  - destruct (frames_loop k w buf off' len') as [[e' t']|] eqn:Hrec;
      [|discriminate].
    cbn [after option_map] in H.
    assert (t = snd (loop_body w buf off len) ++ t') by congruence. subst t.
    apply Happ; [exact Hbody | exact (IH _ _ _ _ Hrec)].
  - assert (t = snd (loop_body w buf off len)) by congruence. subst t.
    exact Hbody.
  - assert (t = snd (loop_body w buf off len)) by congruence. subst t.
    exact Hbody.
Qed.

Lemma receive_once_trace_inv (P : trace -> Prop) w r :
  P [] ->
  (forall t1 t2, P t1 -> P t2 -> P (t1 ++ t2)) ->
  P [Flog LogBufferFull] ->
  (forall off len, NLMSG_OK (hdr (recv_buf r off)) len = true ->
                   P (snd (loop_body w (recv_buf r) off len))) ->
  forall fuel e t, receive_once fuel w r = Some (e, t) -> P t.
Proof.
  intros Hnil Happ Hfull Hbody fuel e t H. unfold receive_once in H.
  destruct (_ =? ENOBUFS).
  { assert (t = [Flog LogBufferFull]) by (cbv in H; congruence).
    subst t. exact Hfull. }
  destruct (_ <? 1).
  { assert (t = []) by (cbv in H; congruence). subst t. exact Hnil. }
  exact (frames_loop_trace_inv P w (recv_buf r) Hnil Happ Hbody _ _ _ _ _ H).
Qed.

Lemma receive_loop_trace_inv (P : trace -> Prop) w :
  P [] ->
  (forall t1 t2, P t1 -> P t2 -> P (t1 ++ t2)) ->
  P [Flog LogBufferFull] ->
  (forall buf off len, NLMSG_OK (hdr (buf off)) len = true ->
                       P (snd (loop_body w buf off len))) ->
  forall fuel rs st t, receive_loop fuel w rs = Some (st, t) -> P t.
Proof.
  intros Hnil Happ Hfull Hbody fuel rs.
  induction rs as [|r rs IH]; intros st t H; cbn [receive_loop] in H.
  - assert (t = []) by (unfold ret in H; congruence). subst t. exact Hnil.
  - destruct (receive_once fuel w r) as [[e t1]|] eqn:Hr; [|discriminate].
    assert (P1 : P t1).
    { exact (receive_once_trace_inv P w r Hnil Happ Hfull
               (fun off len => Hbody (recv_buf r) off len) fuel _ _ Hr). }
    destruct e.
    + destruct (receive_loop fuel w rs) as [[st' t']|] eqn:Hrec;
        [|discriminate].
      cbn [after option_map] in H.
      assert (t = t1 ++ t') by congruence. subst t.
      apply Happ; [exact P1 | exact (IH _ _ eq_refl)].
    + assert (t = t1) by congruence. subst t. exact P1.
Qed.

Lemma lookups_app t1 t2 : lookups (t1 ++ t2) = lookups t1 ++ lookups t2.
Proof. apply flat_map_app. Qed.

(** The trace of one turn of the frame loop: empty, or the mark of the
    message and the trace of its handling. *)
Lemma loop_body_trace w buf off len :
  snd (loop_body w buf off len) = []
  \/ snd (loop_body w buf off len)
     = HandleMsg off :: snd (cgre_handle_msg w (event (buf off)))
     /\ frame_type (buf off) <> NLMSG_NOOP
     /\ frame_type (buf off) <> NLMSG_ERROR
     /\ frame_type (buf off) <> NLMSG_OVERRUN.
Proof.
  destruct (Z.eq_dec (frame_type (buf off)) NLMSG_NOOP) as [E|E1].
  { left. rewrite (loop_body_noop _ _ _ _ E). reflexivity. }
  destruct (Z.eq_dec (frame_type (buf off)) NLMSG_ERROR) as [E|E2].
  { left. rewrite loop_body_error by (left; exact E). reflexivity. }
  destruct (Z.eq_dec (frame_type (buf off)) NLMSG_OVERRUN) as [E|E3].
  { left. rewrite loop_body_error by (right; exact E). reflexivity. }
  right. rewrite (loop_body_handle w buf off len E1 E2 E3). auto.
Qed.

(** X4.  Every request that the receive loop issues, over any receives and
    any buffers, is for a process whose status record could be opened, was
    made with the line buffer allocated, and carries the flag
    [CGFLAG_USECACHE]. *)
Theorem X4_requests_need_record fuel w rs st t :
  receive_loop fuel w rs = Some (st, t) ->
  Forall (fun rq => proc_status w (req_pid rq) <> None
                    /\ calloc_errno w = None
                    /\ req_flags rq = CGFLAG_USECACHE)
         (requests t).
Proof.
  apply (receive_loop_trace_inv
           (fun t => Forall (fun rq => proc_status w (req_pid rq) <> None
                                       /\ calloc_errno w = None
                                       /\ req_flags rq = CGFLAG_USECACHE)
                            (requests t))).
  - constructor.
  - intros t1 t2 H1 H2. rewrite requests_app. apply Forall_app; auto.
  - constructor.
  - intros buf off len _.
    destruct (loop_body_trace w buf off len) as [-> | [-> _]];
      [constructor|].
    change (requests (HandleMsg off :: ?x)) with (requests x).
    destruct (handle_msg_handling w (event (buf off)))
      as [ | | |head f rq Hs Hc Hrq]; try constructor; [|constructor].
    split; [|split; [exact Hc|]].
    + destruct Hrq as [-> | ->]; cbn [req_pid uid_request gid_request];
        rewrite Hs; discriminate.
    + destruct Hrq as [-> | ->]; reflexivity.
Qed.

(** X5.  In every trace of the receive loop there are at most as many
    requests as status records were opened, and at most as many of these as
    messages were handled: a message leads to one lookup at most, and a
    lookup to one request at most. *)
Theorem X5_one_request_per_message fuel w rs st t :
  receive_loop fuel w rs = Some (st, t) ->
  (List.length (requests t) <= List.length (lookups t))%nat
  /\ (List.length (lookups t) <= List.length (handled t))%nat.
Proof.
  apply (receive_loop_trace_inv
           (fun t => (List.length (requests t) <= List.length (lookups t))%nat
                     /\ (List.length (lookups t)
                         <= List.length (handled t))%nat)).
  - simpl; lia.
  - intros t1 t2 [H1 H2] [H3 H4].
    rewrite requests_app, lookups_app, handled_app, !length_app. lia.
  - simpl; lia.
  - intros buf off len _.
    destruct (loop_body_trace w buf off len) as [-> | [-> _]];
      [simpl; lia|].
    destruct (handle_msg_handling w (event (buf off))); simpl; lia.
Qed.

Lemma X4_requests_need_record_witness :
  option_map (fun r => requests (snd r))
    (receive_loop 3 (Sample.world_of Sample.status_full 0)
       [Sample.datagram [Sample.msg 0 76 Sample.orphan_event;
                         Sample.msg NLMSG_DONE 76 Sample.uid_event]])
  = Some [Sample.request_of (Some 2000) (Some 40) 100]
  /\ Forall (fun rq => proc_status (Sample.world_of Sample.status_full 0)
                         (req_pid rq) <> None
                       /\ calloc_errno (Sample.world_of Sample.status_full 0)
                          = None
                       /\ req_flags rq = CGFLAG_USECACHE)
            [Sample.request_of (Some 2000) (Some 40) 100].
Proof.
  split; [vm_compute; reflexivity|].
  exact (X4_requests_need_record 3 (Sample.world_of Sample.status_full 0)
           [Sample.datagram [Sample.msg 0 76 Sample.orphan_event;
                             Sample.msg NLMSG_DONE 76 Sample.uid_event]]
           Listening _ eq_refl).
Defined.

Lemma X5_one_request_per_message_witness :
  option_map (fun r => (List.length (requests (snd r)),
                        List.length (lookups (snd r)),
                        List.length (handled (snd r))))
    (receive_loop 4 (Sample.world_of Sample.status_full 0)
       [Sample.datagram [Sample.msg 0 76 Sample.fork_event;
                         Sample.msg 0 76 Sample.orphan_event;
                         Sample.msg NLMSG_DONE 76 Sample.uid_event]])
  = Some (1%nat, 2%nat, 3%nat)
  /\ (1 <= 2)%nat /\ (2 <= 3)%nat.
Proof.
  split; [vm_compute; reflexivity|].
  exact (X5_one_request_per_message 4
           (Sample.world_of Sample.status_full 0)
           [Sample.datagram [Sample.msg 0 76 Sample.fork_event;
                             Sample.msg 0 76 Sample.orphan_event;
                             Sample.msg NLMSG_DONE 76 Sample.uid_event]]
           Listening _ eq_refl).
Defined.

(** X6.  The messages that the work on a receive hands to
    [cgre_handle_msg], whatever the buffer holds: each has a declared
    length of at least the 16 bytes of the netlink header and a type other
    than [NLMSG_NOOP], [NLMSG_ERROR] and [NLMSG_OVERRUN]. *)
Theorem X6_handled_messages_checked fuel w r e t :
  receive_once fuel w r = Some (e, t) ->
  Forall (fun off => NLMSG_HDRLEN <= frame_len (recv_buf r off)
                     /\ frame_type (recv_buf r off) <> NLMSG_NOOP
                     /\ frame_type (recv_buf r off) <> NLMSG_ERROR
                     /\ frame_type (recv_buf r off) <> NLMSG_OVERRUN)
         (handled t).
Proof.
  apply (receive_once_trace_inv
           (fun t => Forall (fun off =>
                       NLMSG_HDRLEN <= frame_len (recv_buf r off)
                       /\ frame_type (recv_buf r off) <> NLMSG_NOOP
                       /\ frame_type (recv_buf r off) <> NLMSG_ERROR
                       /\ frame_type (recv_buf r off) <> NLMSG_OVERRUN)
                     (handled t))).
  - constructor.
  - intros t1 t2 H1 H2. rewrite handled_app. apply Forall_app; auto.
  - constructor.
  - intros off len Hok.
    destruct (loop_body_trace w (recv_buf r) off len) as [-> | [-> Hty]];
      [constructor|].
    change (handled (HandleMsg off :: ?x)) with (off :: handled x).
    rewrite handle_msg_handled. constructor; [|constructor].
    split; [|exact Hty].
    unfold NLMSG_OK in Hok.
    apply andb_true_iff in Hok as [Hok _].
    apply andb_true_iff in Hok as [_ Hok].
    apply Z.leb_le in Hok. exact Hok.
Qed.

Lemma X6_handled_messages_checked_witness :
  option_map (fun r => handled (snd r))
    (receive_once 3 (Sample.world_of Sample.status_full 0)
       (Sample.datagram [Sample.msg 0 76 Sample.uid_event;
                         Sample.msg NLMSG_ERROR 36 zero_event;
                         Sample.msg 0 76 Sample.gid_event]))
  = Some [0]
  /\ Forall (fun off =>
       NLMSG_HDRLEN
       <= frame_len (place [Sample.msg 0 76 Sample.uid_event;
                            Sample.msg NLMSG_ERROR 36 zero_event;
                            Sample.msg 0 76 Sample.gid_event] 0 off)
       /\ frame_type (place [Sample.msg 0 76 Sample.uid_event;
                             Sample.msg NLMSG_ERROR 36 zero_event;
                             Sample.msg 0 76 Sample.gid_event] 0 off)
          <> NLMSG_NOOP
       /\ frame_type (place [Sample.msg 0 76 Sample.uid_event;
                             Sample.msg NLMSG_ERROR 36 zero_event;
                             Sample.msg 0 76 Sample.gid_event] 0 off)
          <> NLMSG_ERROR
       /\ frame_type (place [Sample.msg 0 76 Sample.uid_event;
                             Sample.msg NLMSG_ERROR 36 zero_event;
                             Sample.msg 0 76 Sample.gid_event] 0 off)
          <> NLMSG_OVERRUN) [0].
Proof.
  split; [vm_compute; reflexivity|].
  exact (X6_handled_messages_checked 3 (Sample.world_of Sample.status_full 0)
           (Sample.datagram [Sample.msg 0 76 Sample.uid_event;
                             Sample.msg NLMSG_ERROR 36 zero_event;
                             Sample.msg 0 76 Sample.gid_event])
           NextReceive _ eq_refl).
Defined.

(** X9.  The receives are worked on one after the other: the daemon's run
    over two lists of receives in a row is its run over the first and, when
    that leaves it listening, its run over the second behind it.  Once the
    loop was left, no later receive is looked at. *)
Theorem X9_receives_in_sequence fuel w rs1 rs2 :
  receive_loop fuel w (rs1 ++ rs2)
  = match receive_loop fuel w rs1 with
    | None => None
    | Some (Returned rc, t) => Some (Returned rc, t)
    | Some (Listening, t) => after t (receive_loop fuel w rs2)
    end.
Proof.
  induction rs1 as [|r rs1 IH].
  - cbn [app receive_loop ret]. rewrite after_nil. reflexivity.
  - cbn [app receive_loop].
    destruct (receive_once fuel w r) as [[e t1]|]; [|reflexivity].
    destruct e; [|reflexivity].
    rewrite IH.
    destruct (receive_loop fuel w rs1) as [[st t']|]; [|reflexivity].
    destruct st; cbn [after option_map]; [|reflexivity].
    destruct (receive_loop fuel w rs2) as [[st2 t2]|]; [|reflexivity].
    cbn [after option_map]. rewrite app_assoc. reflexivity.
Qed.





(** X8.  With the channel set up, a libcgroup that never answers below 0
    and an [errno] that is never below 0, the function does not return:
    after any receives, with any contents, the daemon is listening for the
    next one.  (A run that the model cannot finish is one that hangs on a
    no-op message.) *)
Theorem X8_loop_runs_on fuel w s rs st t :
  socket_ok s = true -> bind_ok s = true -> send_ok s = true ->
  (forall rq, 0 <= policy w rq) ->
  (forall e, calloc_errno w = Some e -> 0 <= e) ->
  cgre_create_netlink_socket_process_msg fuel w s rs = Some (st, t) ->
  st = Listening.
Proof.
  intros H1 H2 H3 Hp He.
  unfold cgre_create_netlink_socket_process_msg. rewrite H1, H2, H3.
  cbn [negb]. revert st t.
  induction rs as [|r rs IH]; intros st t H; cbn [receive_loop] in H.
  - unfold ret in H. congruence.
  - destruct (receive_once fuel w r) as [[e t1]|] eqn:Hr; [|discriminate].
    destruct e.
    + destruct (receive_loop fuel w rs) as [[st' t']|]; [|discriminate].
      cbn [after option_map] in H.
      assert (st' = st) by congruence. subst st'.
      exact (IH _ _ eq_refl).
    + exfalso. unfold receive_once in Hr.
      destruct (_ =? ENOBUFS); [discriminate|].
      destruct (_ <? 1); [discriminate|].
      exact (frames_loop_never_exits w _ Hp He _ _ _ _ Hr).
Qed.

Lemma X8_loop_runs_on_witness :
  option_map fst
    (cgre_create_netlink_socket_process_msg 3
       (Sample.world_of Sample.status_full 50001)
       {| socket_ok := true; bind_ok := true; send_ok := true |}
       [Sample.datagram [Sample.msg 0 76 Sample.uid_event;
                         Sample.msg NLMSG_DONE 76 Sample.gid_event];
        Sample.failed_receive])
  = Some Listening.
Proof.
  destruct (cgre_create_netlink_socket_process_msg 3
              (Sample.world_of Sample.status_full 50001)
              {| socket_ok := true; bind_ok := true; send_ok := true |}
              [Sample.datagram [Sample.msg 0 76 Sample.uid_event;
                                Sample.msg NLMSG_DONE 76 Sample.gid_event];
               Sample.failed_receive]) as [[st t]|] eqn:E.
  - cbn [option_map fst]. f_equal.
    apply (X8_loop_runs_on 3 (Sample.world_of Sample.status_full 50001)
             {| socket_ok := true; bind_ok := true; send_ok := true |}
             [Sample.datagram [Sample.msg 0 76 Sample.uid_event;
                               Sample.msg NLMSG_DONE 76 Sample.gid_event];
              Sample.failed_receive] st t);
      try reflexivity; try exact E.
    + intros rq. cbn. lia.
    + intros e He. discriminate He.
  - vm_compute in E. discriminate E.
Defined.

(** ** The command line *)

Lemma parse_args_app_bounded n : forall a1 a2 o o1,
  (List.length a1 <= n)%nat ->
  parse_args a1 o = Parsed o1 ->
  parse_args (a1 ++ a2) o = parse_args a2 o1.
Proof.
  induction n as [|n IH]; intros a1 a2 o o1 Hn H.
  - destruct a1; [|simpl in Hn; lia].
    simpl in H. injection H as <-. reflexivity.
  - destruct a1 as [|a rest].
    + simpl in H. injection H as <-. reflexivity.
    + cbn [app parse_args] in *.
      destruct (strncmp_eq a opt_log 5).
      * destruct rest as [|p rest']; [discriminate|].
        cbn [app]. destruct (List.length p <? FILENAME_MAX)%nat;
          [|discriminate].
        apply IH; [simpl in Hn; lia | exact H].
      * destruct (strncmp_eq a opt_nodaemon 10).
        { apply IH; [simpl in Hn; lia | exact H]. }
        destruct (strncmp_eq a opt_nolog 7); [|discriminate].
        apply IH; [simpl in Hn; lia | exact H].
Qed.

Lemma parse_args_app_parsed a1 a2 o o1 :
  parse_args a1 o = Parsed o1 ->
  parse_args (a1 ++ a2) o = parse_args a2 o1.
Proof. apply (parse_args_app_bounded (List.length a1)). lia. Qed.

Lemma parse_args_app_invalid n : forall a1 a2 o bad,
  (List.length a1 <= n)%nat ->
  parse_args a1 o = InvalidArgument bad ->
  parse_args (a1 ++ a2) o = InvalidArgument bad.
Proof.
  induction n as [|n IH]; intros a1 a2 o bad Hn H.
  - destruct a1; [discriminate | simpl in Hn; lia].
  - destruct a1 as [|a rest]; [discriminate|].
    cbn [app parse_args] in *.
    destruct (strncmp_eq a opt_log 5).
    + destruct rest as [|p rest']; [discriminate|].
      cbn [app]. destruct (List.length p <? FILENAME_MAX)%nat;
        [|discriminate].
      apply IH; [simpl in Hn; lia | exact H].
    + destruct (strncmp_eq a opt_nodaemon 10).
      { apply IH; [simpl in Hn; lia | exact H]. }
      destruct (strncmp_eq a opt_nolog 7); [|exact H].
      apply IH; [simpl in Hn; lia | exact H].
Qed.

(** X10.  The arguments are read from left to right, and what was read
    stays: when a first part of the command line is read to the end with
    the settings [o1], the whole line is read as its second part is from
    [o1]; and when the first part stops at an argument that is no option,
    the whole line stops there, whatever follows. *)
Theorem X10_arguments_left_to_right a1 a2 o :
  (forall o1, parse_args a1 o = Parsed o1 ->
              parse_args (a1 ++ a2) o = parse_args a2 o1)
  /\ (forall bad, parse_args a1 o = InvalidArgument bad ->
                  parse_args (a1 ++ a2) o = InvalidArgument bad).
Proof.
  split.
  - intros o1 H. apply (parse_args_app_bounded (List.length a1)); [lia|].
    exact H.
  - intros bad H. apply (parse_args_app_invalid (List.length a1)); [lia|].
    exact H.
Qed.

(** X11.  Round trip through the command line.  For any list of options
    (a log path that fits [logp], "--nodaemon", "--nolog") in any order and
    number, the loop over their arguments ends at the end of the line with
    the settings that the options give one after the other: the last path
    is the log path, daemon mode is off exactly when "--nodaemon" was
    among them or was off before, and so for the log. *)
Theorem X11_command_line_round_trip fl : forall o,
  Forall flag_fits fl ->
  parse_args (flat_map render fl) o = Parsed (fold_left apply_flag fl o).
Proof.
  induction fl as [|f fl IH]; intros o Hfit; [reflexivity|].
  inversion Hfit as [|? ? Hf Hfit']; subst.
  destruct f as [p| |]; cbn [flat_map render app fold_left apply_flag].
  - cbn [parse_args].
    change (strncmp_eq opt_log opt_log 5) with true. cbv iota.
    simpl in Hf. apply Nat.ltb_lt in Hf. rewrite Hf.
    apply IH; exact Hfit'.
  - cbn [parse_args].
    change (strncmp_eq opt_nodaemon opt_log 5) with false.
    change (strncmp_eq opt_nodaemon opt_nodaemon 10) with true. cbv iota.
    apply IH; exact Hfit'.
  - cbn [parse_args].
    change (strncmp_eq opt_nolog opt_log 5) with false.
    change (strncmp_eq opt_nolog opt_nodaemon 10) with false.
    change (strncmp_eq opt_nolog opt_nolog 7) with true. cbv iota.
    apply IH; exact Hfit'.
Qed.

Lemma X11_command_line_round_trip_witness :
  flat_map render [FNoLog; FLog (Sample.txt "/tmp/a.log"); FNoDaemon;
                   FLog (Sample.txt "/var/log/cgre.log")]
  = [Sample.txt "--nolog"; Sample.txt "--log"; Sample.txt "/tmp/a.log";
     Sample.txt "--nodaemon"; Sample.txt "--log";
     Sample.txt "/var/log/cgre.log"]
  /\ parse_args [Sample.txt "--nolog"; Sample.txt "--log";
                 Sample.txt "/tmp/a.log"; Sample.txt "--nodaemon";
                 Sample.txt "--log"; Sample.txt "/var/log/cgre.log"]
       default_options
     = Parsed {| logp := Sample.txt "/var/log/cgre.log";
                 daemon := false; logs := false |}.
Proof.
  split; [reflexivity|].
  apply (X11_command_line_round_trip
           [FNoLog; FLog (Sample.txt "/tmp/a.log"); FNoDaemon;
            FLog (Sample.txt "/var/log/cgre.log")] default_options).
  repeat (apply Forall_cons || apply Forall_nil); try exact I;
    apply Nat.ltb_lt; vm_compute; reflexivity.
Defined.

Lemma X10_arguments_left_to_right_witness :
  parse_args [Sample.txt "--nolog"] default_options
  = Parsed {| logp := logp default_options; daemon := true; logs := false |}
  /\ parse_args ([Sample.txt "--nolog"]
                 ++ [Sample.txt "--log"; Sample.txt "--nodaemon"])
       default_options
     = Parsed {| logp := Sample.txt "--nodaemon"; daemon := true;
                 logs := false |}
  /\ parse_args ([Sample.txt "--nolog"; Sample.txt "-x"]
                 ++ [Sample.txt "--nodaemon"]) default_options
     = InvalidArgument (Sample.txt "-x").
Proof.
  split; [reflexivity|]. split.
  - rewrite (proj1 (X10_arguments_left_to_right
                      [Sample.txt "--nolog"]
                      [Sample.txt "--log"; Sample.txt "--nodaemon"]
                      default_options) _ eq_refl).
    reflexivity.
  - exact (proj2 (X10_arguments_left_to_right
                    [Sample.txt "--nolog"; Sample.txt "-x"]
                    [Sample.txt "--nodaemon"] default_options)
                 _ eq_refl).
Defined.

(** X12.  Options are matched on their first characters only, and "--log"
    takes the argument behind it unseen.  Behind arguments that were read
    to the end: any argument that begins with "--nodaemon" turns daemon
    mode off and any that begins with "--nolog" turns the log off; any that
    begins with "--log" makes the next argument the log path when it fits
    [logp], also when that argument looks like an option; as the last
    argument it leaves the program with the NULL behind the arguments as
    the path. *)
Theorem X12_options_by_prefix args o o1 suffix p rest :
  parse_args args o = Parsed o1 ->
  parse_args (args ++ (opt_nodaemon ++ suffix) :: rest) o
  = parse_args rest {| logp := logp o1; daemon := false; logs := logs o1 |}
  /\ parse_args (args ++ (opt_nolog ++ suffix) :: rest) o
     = parse_args rest
         {| logp := logp o1; daemon := daemon o1; logs := false |}
  /\ parse_args (args ++ (opt_log ++ suffix) :: p :: rest) o
     = (if (List.length p <? FILENAME_MAX)%nat
        then parse_args rest
               {| logp := p; daemon := daemon o1; logs := logs o1 |}
        else PathOverrun p)
  /\ parse_args (args ++ [opt_log ++ suffix]) o = NoOperand.
Proof.
  intros H.
  rewrite !(parse_args_app_parsed args _ o o1 H).
  repeat split.
Qed.

Lemma X12_options_by_prefix_witness :
  parse_args ([Sample.txt "--nolog"]
              ++ (opt_nodaemon ++ Sample.txt "=yes") :: []) default_options
  = Parsed {| logp := logp default_options; daemon := false; logs := false |}
  /\ parse_args ([Sample.txt "--nolog"]
                 ++ (opt_log ++ Sample.txt "file") :: Sample.txt "--nodaemon"
                 :: []) default_options
     = Parsed {| logp := Sample.txt "--nodaemon"; daemon := true;
                 logs := false |}
  /\ parse_args ([Sample.txt "--nolog"] ++ [opt_log ++ Sample.txt ""])
       default_options
     = NoOperand.
Proof.
  destruct (X12_options_by_prefix [Sample.txt "--nolog"] default_options _
              (Sample.txt "=yes") (Sample.txt "--nodaemon") [] eq_refl)
    as (H1 & _ & _ & _).
  destruct (X12_options_by_prefix [Sample.txt "--nolog"] default_options _
              (Sample.txt "file") (Sample.txt "--nodaemon") [] eq_refl)
    as (_ & _ & H3 & _).
  destruct (X12_options_by_prefix [Sample.txt "--nolog"] default_options _
              (Sample.txt "") (Sample.txt "--nodaemon") [] eq_refl)
    as (_ & _ & _ & H4).
  split; [exact H1|]. split; [exact H3 | exact H4].
Defined.

(** ** Starting the daemon *)

Lemma open_log_stream sys lp lg :
  fst (open_log sys lp lg) = LogTo lp /\ lg = true /\ fopen_log sys lp = true
  \/ fst (open_log sys lp lg) = Stdout
     /\ (lg = false \/ fopen_log sys lp = false).
Proof.
  unfold open_log. destruct lg; [destruct (fopen_log sys lp) eqn:E|]; auto.
Qed.

(** X13.  The ways in which [cgre_start_daemon] ends.  It returns 0, 1, 2
    or 3 and never a negative value: 1 only when [fork] failed, 2 only when
    [setsid] failed in the child, 3 only when [chdir] failed there.  It
    ends the process, with status 0, only in the parent of a [fork] that
    succeeded.  Without daemon mode it returns 0 whatever the system
    answers. *)
Theorem X13_start_daemon_codes sys lp dm lg lf0 :
  match fst (fst (cgre_start_daemon sys lp dm lg lf0)) with
  | Return c =>
      (c = 0 /\ (dm = true -> fork sys = 0 /\ 0 <= setsid sys
                              /\ 0 <= chdir_root sys))
      \/ (c = 1 /\ dm = true /\ fork sys < 0)
      \/ (c = 2 /\ dm = true /\ fork sys = 0 /\ setsid sys < 0)
      \/ (c = 3 /\ dm = true /\ fork sys = 0 /\ 0 <= setsid sys
          /\ chdir_root sys < 0)
  | Exit status => status = 0 /\ dm = true /\ 0 < fork sys
  | Waiting => False
  | Undefined => False
  end.
Proof.
  unfold cgre_start_daemon, detach.
  destruct dm.
  - destruct (Z.ltb_spec (fork sys) 0); [cbn; right; left; auto|].
    destruct (Z.ltb_spec 0 (fork sys)); [cbn; auto|].
    destruct (open_log sys lp lg) as [lf t1].
    destruct (Z.ltb_spec (setsid sys) 0).
    { cbn. right; right; left. repeat split; auto; lia. }
    destruct (Z.ltb_spec (chdir_root sys) 0).
    { cbn. right; right; right. repeat split; auto; lia. }
    cbn. left. repeat split; auto; lia.
  - destruct (open_log sys lp lg) as [lf t1]. cbn. left.
    split; [reflexivity | discriminate].
Qed.

(** X15.  Without daemon mode [cgre_start_daemon] does not fork, does not
    leave the session or the directory and closes no descriptor: every
    step is the opening of the log file or a line written to an open
    stream. *)
Theorem X15_foreground_keeps_process sys lp lg lf0 :
  Forall (fun st => match st with
                    | Write _ _ | OpenLog _ => True
                    | _ => False
                    end)
         (snd (cgre_start_daemon sys lp false lg lf0))
  /\ fst (cgre_start_daemon sys lp false lg lf0)
     = (Return 0, Some (fst (open_log sys lp lg))).
Proof.
  unfold cgre_start_daemon, open_log.
  destruct lg; [destruct (fopen_log sys lp)|]; cbn;
    split; try reflexivity; repeat constructor.
Qed.

(** X16.  The log stream that [cgre_start_daemon] leaves is one that is
    open.  It is the file at [logp] only when logging was asked for and the
    file was opened, and it is [stdout] otherwise; and descriptor 1 is
    closed only in the first case, so never while it is the log stream. *)
Theorem X16_log_stream_open sys lp dm lg :
  (forall p, snd (fst (cgre_start_daemon sys lp dm lg None)) = Some (LogTo p)
             -> p = lp /\ lg = true /\ fopen_log sys lp = true
                /\ In (OpenLog lp) (snd (cgre_start_daemon sys lp dm lg None)))
  /\ (snd (fst (cgre_start_daemon sys lp dm lg None)) <> Some Stderr)
  /\ (In (Close 1) (snd (cgre_start_daemon sys lp dm lg None))
      -> snd (fst (cgre_start_daemon sys lp dm lg None)) = Some (LogTo lp)
         /\ fst (fst (cgre_start_daemon sys lp dm lg None)) = Return 0).
Proof.
  unfold cgre_start_daemon, detach, open_log.
  destruct dm;
    [destruct (fork sys <? 0);
     [|destruct (0 <? fork sys);
       [|destruct (setsid sys <? 0);
         [|destruct (chdir_root sys <? 0)]]]|];
    (destruct lg; [destruct (fopen_log sys lp) eqn:E|]); cbn;
    (split; [intros p Hp; try discriminate;
             injection Hp as <-; auto 10
            |split; [discriminate|]]);
    intros Hin;
    repeat (destruct Hin as [Hin|Hin]; try discriminate; try contradiction);
    auto.
Qed.

(** ** main *)

(** All the paths through [main]: one goal for each way in which the
    system, the command line and the loop can answer. *)
Ltac main_paths :=
  unfold main, serve, cgre_start_daemon, detach, open_log, close_log;
  repeat match goal with
    | |- context [negb (?a =? ?b)] =>
        destruct (Z.eqb_spec a b); cbn [negb]
    | |- context [?a <? ?b] => destruct (Z.ltb_spec a b)
    | |- context [match parse_args ?a ?o with _ => _ end] =>
        destruct (parse_args a o) eqn:?
    | |- context [if daemon ?o then _ else _] => destruct (daemon o) eqn:?
    | |- context [if logs ?o then _ else _] => destruct (logs o) eqn:?
    | |- context [if fopen_log ?s ?p then _ else _] =>
        destruct (fopen_log s p) eqn:?
    | |- context [match cgre_create_netlink_socket_process_msg ?f ?w ?s ?rs
                  with _ => _ end] =>
        destruct (cgre_create_netlink_socket_process_msg f w s rs)
          as [[[|?] ?]|] eqn:?
    end;
  cbn [option_map is_stdout app].

Ltac in_list H :=
  try contradiction;
  repeat (destruct H as [H|H]; try discriminate; try contradiction).

Ltac is_in := repeat (first [left; reflexivity | right]).

Lemma loop_returns_minus_one fuel w s rs rc t :
  cgre_create_netlink_socket_process_msg fuel w s rs = Some (Returned rc, t) ->
  rc = -1.
Proof.
  unfold cgre_create_netlink_socket_process_msg, ret.
  destruct (socket_ok s); cbn [negb]; [|congruence].
  destruct (bind_ok s); cbn [negb]; [|congruence].
  destruct (send_ok s); cbn [negb]; [|congruence].
  revert t. induction rs as [|r rs IH]; intros t H; cbn [receive_loop] in H.
  - unfold ret in H. congruence.
  - destruct (receive_once fuel w r) as [[[|] t1]|]; try discriminate.
    + destruct (receive_loop fuel w rs) as [[st' t']|]; [|discriminate].
      cbn [after option_map] in H.
      assert (st' = Returned rc) by congruence. subst st'.
      exact (IH _ eq_refl).
    + congruence.
Qed.

(** X14.  [main] does not notice a failed start of the daemon.  It never
    writes "Failed to launch the daemon", since [cgre_start_daemon] reports
    failure with 1, 2 or 3 and [main] tests for a code below 0.  After a
    failed [setsid] or [chdir] it goes on to install the signal handlers as
    after a start that succeeded; after a failed [fork] it does so with
    [logfile] still NULL, and the program has no defined behaviour. *)
Theorem X14_failed_start_unnoticed fuel sys w s rs args oc t :
  main fuel sys w s rs args = Some (oc, t) ->
  (forall c, ~ In (Write Stderr (MsgLaunchFailed c)) t)
  /\ (In Fork t -> fork sys < 0 ->
      oc = Undefined /\ In (Sigaction SIGUSR2) t)
  /\ (In Setsid t -> setsid sys < 0 \/ chdir_root sys < 0 ->
      In (Sigaction SIGUSR2) t).
Proof.
  main_paths; intros Hmain; try discriminate;
    injection Hmain as <- <-;
    (split; [intros c Hin; cbn in Hin; in_list Hin|]);
    (split; intros Hin Hneg; try lia; cbn in Hin; in_list Hin;
     cbn; try split; try reflexivity; is_in).
Qed.

(** X17.  The receive loop is entered only after everything before it went
    well: the caller is root, the command line was read to its end,
    libcgroup and its rules cache were initialised with code 0, and all
    three signal handlers were installed.  From then on [main] either waits
    in the loop or returns the -1 of the loop. *)
Theorem X17_loop_needs_setup fuel sys w s rs args oc t d :
  main fuel sys w s rs args = Some (oc, t) ->
  In (Daemon d) t ->
  getuid sys = 0
  /\ (exists o, parse_args args default_options = Parsed o)
  /\ cgroup_init sys = 0
  /\ cgroup_init_rules_cache sys = 0
  /\ sigaction sys SIGUSR2 = 0
  /\ sigaction sys SIGINT = 0
  /\ sigaction sys SIGTERM = 0
  /\ (exists st, cgre_create_netlink_socket_process_msg fuel w s rs
                 = Some (st, d))
  /\ (oc = Waiting \/ oc = Return (-1)).
Proof.
  main_paths; intros Hmain; try discriminate;
    injection Hmain as <- <-; intros Hin; cbn in Hin; in_list Hin;
    injection Hin as <-;
    match goal with
    | E : Z.lor _ _ = 0 |- _ => apply Z.lor_eq_0_iff in E as [? ?]
    end;
    try match goal with
    | E : cgre_create_netlink_socket_process_msg _ _ _ _
          = Some (Returned ?rc, _) |- _ =>
        pose proof (loop_returns_minus_one _ _ _ _ _ _ E); subst rc
    end;
    repeat (split; [first [assumption | eexists; reflexivity
                           | eexists; eassumption]|]);
    auto.
Qed.

(** X18.  The codes that [main] returns.  1 when the caller is not root and
    2 at an argument that is no option, in both cases with one line on
    [stderr] and nothing else done; the code of [cgroup_init] or of
    [cgroup_init_rules_cache] when that is not 0; the result of a
    [sigaction] that failed; and the -1 of the receive loop.  A code of
    [cgre_start_daemon] is never what [main] returns for it. *)
Theorem X18_exit_codes fuel sys w s rs args c t :
  main fuel sys w s rs args = Some (Return c, t) ->
  (c = 1 /\ getuid sys <> 0 /\ t = [Write Stderr MsgOnlyRoot])
  \/ (c = 2 /\ exists bad,
        parse_args args default_options = InvalidArgument bad
        /\ t = [Write Stderr (MsgUsage bad)])
  \/ (c = cgroup_init sys /\ c <> 0)
  \/ (c = cgroup_init_rules_cache sys /\ c <> 0)
  \/ (c = sigaction sys SIGUSR2 /\ c <> 0)
  \/ (c = Z.lor (sigaction sys SIGINT) (sigaction sys SIGTERM) /\ c <> 0)
  \/ (c = -1 /\ exists d, In (Daemon d) t).
Proof.
  main_paths; intros Hmain; try discriminate;
    injection Hmain as <- <-;
    try match goal with
    | E : cgre_create_netlink_socket_process_msg _ _ _ _
          = Some (Returned ?rc, _) |- _ =>
        pose proof (loop_returns_minus_one _ _ _ _ _ _ E); subst rc
    end;
    try lia;
    first
      [ left; repeat split; assumption
      | right; left; split; [reflexivity|]; eexists; split; reflexivity
      | right; right; left; split; [reflexivity | assumption]
      | right; right; right; left; split; [reflexivity | assumption]
      | right; right; right; right; left; split; [reflexivity | assumption]
      | right; right; right; right; right; left;
        split; [reflexivity | assumption]
      | right; right; right; right; right; right;
        split; [reflexivity|]; eexists; cbn; is_in ].
Qed.

(** X19.  [main] closes the log file that was opened before it returns, and
    it closes nothing else with [fclose]: neither [stdout] nor [stderr],
    and no file that was not opened. *)
Theorem X19_log_file_closed fuel sys w s rs args c t :
  main fuel sys w s rs args = Some (Return c, t) ->
  (forall p, In (OpenLog p) t -> fopen_log sys p = true ->
             In (Fclose (LogTo p)) t)
  /\ (forall st, In (Fclose st) t ->
                 exists p, st = LogTo p /\ In (OpenLog p) t
                           /\ fopen_log sys p = true).
Proof.
  main_paths; intros Hmain; try discriminate;
    injection Hmain as _ <-;
    (split;
     [intros p Hin Hopen; cbn in Hin; in_list Hin;
      try (injection Hin as <-); try congruence; cbn; is_in
     |intros st Hin; cbn in Hin; in_list Hin;
      injection Hin as <-; eexists;
      (split; [reflexivity|]); (split; [cbn; is_in | assumption])]).
Qed.

(** X20.  Termination after the start.  With the [logfile] that
    [cgre_start_daemon] leaves, the handler of SIGINT and SIGTERM closes
    with [fclose] the log file at [logp] when that was opened, and nothing
    else: [stdout] stays open when it is the log stream. *)
Theorem X20_term_closes_log sys lp dm lg st :
  In (Fclose st)
     (snd (cgre_catch_term
             (snd (fst (cgre_start_daemon sys lp dm lg None)))))
  <-> st = LogTo lp /\ lg = true /\ fopen_log sys lp = true
      /\ (dm = true -> fork sys = 0).
Proof.
  unfold cgre_start_daemon, detach, open_log, cgre_catch_term, close_log.
  destruct dm;
    [destruct (Z.ltb_spec (fork sys) 0);
     [|destruct (Z.ltb_spec 0 (fork sys));
       [|destruct (setsid sys <? 0);
         [|destruct (chdir_root sys <? 0)]]]|];
    (destruct lg; [destruct (fopen_log sys lp) eqn:E|]); cbn;
    (split;
     [intros Hin; in_list Hin; try (injection Hin as <-);
      repeat split; auto; intros; lia
     |intros (-> & Hlg & Hop & Hfk); try discriminate; try congruence;
      try (specialize (Hfk eq_refl); lia); auto]).
Qed.

(** ** Sample runs of main *)

Lemma X14_failed_start_unnoticed_witness :
  main 3 (Hosts.host 0 0 (-1) 0) (Sample.world_of Sample.status_full 0)
       Hosts.channel_up [Sample.failed_receive] []
  = Some (Waiting, Hosts.steps_setsid_failed)
  /\ setsid (Hosts.host 0 0 (-1) 0) < 0
  /\ In (Sigaction SIGUSR2) Hosts.steps_setsid_failed.
Proof.
  assert (Hrun : main 3 (Hosts.host 0 0 (-1) 0)
                   (Sample.world_of Sample.status_full 0)
                   Hosts.channel_up [Sample.failed_receive] []
                 = Some (Waiting, Hosts.steps_setsid_failed))
    by (vm_compute; reflexivity).
  split; [exact Hrun|]. split; [reflexivity|].
  destruct (X14_failed_start_unnoticed _ _ _ _ _ _ _ _ Hrun) as (_ & _ & H).
  apply H.
  - vm_compute. is_in.
  - left. reflexivity.
Defined.

Lemma X16_log_stream_open_witness :
  In (Close 1)
     (snd (cgre_start_daemon (Hosts.host 0 0 0 0) Hosts.log_path true true
                             None))
  /\ snd (fst (cgre_start_daemon (Hosts.host 0 0 0 0) Hosts.log_path
                                 true true None))
     = Some (LogTo Hosts.log_path)
  /\ fst (fst (cgre_start_daemon (Hosts.host 0 0 0 0) Hosts.log_path
                                 true true None))
     = Return 0.
Proof.
  assert (Hin : In (Close 1)
                   (snd (cgre_start_daemon (Hosts.host 0 0 0 0)
                           Hosts.log_path true true None)))
    by (vm_compute; is_in).
  split; [exact Hin|].
  destruct (X16_log_stream_open (Hosts.host 0 0 0 0) Hosts.log_path
              true true) as (_ & _ & H).
  exact (H Hin).
Defined.

Lemma X17_loop_needs_setup_witness :
  main 3 (Hosts.host 0 0 0 0) (Sample.world_of Sample.status_full (-1))
       Hosts.channel_up Hosts.one_event [Sample.txt "--nodaemon"]
  = Some (Return (-1), Hosts.steps_loop_left)
  /\ In (Daemon Hosts.loop_left) Hosts.steps_loop_left
  /\ sigaction (Hosts.host 0 0 0 0) SIGTERM = 0
  /\ (exists st,
        cgre_create_netlink_socket_process_msg 3
          (Sample.world_of Sample.status_full (-1)) Hosts.channel_up
          Hosts.one_event
        = Some (st, Hosts.loop_left)).
Proof.
  assert (Hrun : main 3 (Hosts.host 0 0 0 0)
                   (Sample.world_of Sample.status_full (-1))
                   Hosts.channel_up Hosts.one_event [Sample.txt "--nodaemon"]
                 = Some (Return (-1), Hosts.steps_loop_left))
    by (vm_compute; reflexivity).
  assert (Hin : In (Daemon Hosts.loop_left) Hosts.steps_loop_left)
    by (vm_compute; is_in).
  split; [exact Hrun|]. split; [exact Hin|].
  destruct (X17_loop_needs_setup _ _ _ _ _ _ _ _ _ Hrun Hin)
    as (_ & _ & _ & _ & _ & _ & Hterm & Hloop & _).
  split; [exact Hterm | exact Hloop].
Defined.

Lemma X18_exit_codes_witness :
  main 3 (Hosts.host 0 0 0 (-1)) (Sample.world_of Sample.status_full (-1))
       Hosts.channel_up Hosts.one_event []
  = Some (Return (-1), Hosts.steps_sigusr2_failed)
  /\ ((-1 = 1 /\ getuid (Hosts.host 0 0 0 (-1)) <> 0
       /\ Hosts.steps_sigusr2_failed = [Write Stderr MsgOnlyRoot])
      \/ (-1 = 2 /\ exists bad,
            parse_args [] default_options = InvalidArgument bad
            /\ Hosts.steps_sigusr2_failed = [Write Stderr (MsgUsage bad)])
      \/ (-1 = cgroup_init (Hosts.host 0 0 0 (-1)) /\ -1 <> 0)
      \/ (-1 = cgroup_init_rules_cache (Hosts.host 0 0 0 (-1)) /\ -1 <> 0)
      \/ (-1 = sigaction (Hosts.host 0 0 0 (-1)) SIGUSR2 /\ -1 <> 0)
      \/ (-1 = Z.lor (sigaction (Hosts.host 0 0 0 (-1)) SIGINT)
                     (sigaction (Hosts.host 0 0 0 (-1)) SIGTERM)
          /\ -1 <> 0)
      \/ (-1 = -1 /\ exists d, In (Daemon d) Hosts.steps_sigusr2_failed)).
Proof.
  assert (Hrun : main 3 (Hosts.host 0 0 0 (-1))
                   (Sample.world_of Sample.status_full (-1))
                   Hosts.channel_up Hosts.one_event []
                 = Some (Return (-1), Hosts.steps_sigusr2_failed))
    by (vm_compute; reflexivity).
  split; [exact Hrun|].
  exact (X18_exit_codes _ _ _ _ _ _ _ _ Hrun).
Defined.

Lemma X19_log_file_closed_witness :
  main 3 (Hosts.host 0 0 0 0) (Sample.world_of Sample.status_full (-1))
       Hosts.channel_up Hosts.one_event [Sample.txt "--nodaemon"]
  = Some (Return (-1), Hosts.steps_loop_left)
  /\ In (OpenLog Hosts.log_path) Hosts.steps_loop_left
  /\ In (Fclose (LogTo Hosts.log_path)) Hosts.steps_loop_left.
Proof.
  assert (Hrun : main 3 (Hosts.host 0 0 0 0)
                   (Sample.world_of Sample.status_full (-1))
                   Hosts.channel_up Hosts.one_event [Sample.txt "--nodaemon"]
                 = Some (Return (-1), Hosts.steps_loop_left))
    by (vm_compute; reflexivity).
  assert (Hin : In (OpenLog Hosts.log_path) Hosts.steps_loop_left)
    by (vm_compute; is_in).
  split; [exact Hrun|]. split; [exact Hin|].
  exact (proj1 (X19_log_file_closed _ _ _ _ _ _ _ _ Hrun)
               Hosts.log_path Hin eq_refl).
Defined.
